(** * a11y-wizard: the scoring engine, issue classifier and report assembler

    A shallow embedding of the scoring and reporting code of the
    repository:

    - [accessibility_checker.py]  (class [AccessibilityChecker])
    - [templates/scoring.py]      (class [AccessibilityScorer])
    - [pdf_analyzer.py]           (class [PDFAccessibilityChecker])
    - [compliance_tracker.py]     (class [UniversityComplianceTracker])

    Conventions.

    - A Python [str] is a Rocq [string] holding its UTF-8 encoding.  Lengths
      and slices count code points (see [PyStr]); case conversion acts on
      the ASCII letters only, which decides every comparison against an
      ASCII keyword exactly as Python does (no character outside ASCII
      lowercases to a letter of "critical", "serious", "moderate",
      "minor").
    - A Python [int] is a [Z]; [len] of a list is [Z.of_nat (length _)].
    - A Python [dict] read with [.get(key, default)] is a record of
      [option] fields ([None]: the key is absent); a [dict] used as a
      lookup table, and the file system, are [gmap]s.
    - A Python [float] is a binary64 number.  Where the code only divides
      and compares (Policy A) it is a primitive [float]; where the claim
      needs reasoning about rounded arithmetic and the C library's [pow]
      (Policy B) the operations are the exact rational ones followed by a
      rounding function [rnd], see [AccessibilityScorer]. *)

From Stdlib Require Import ZArith QArith Qround Qpower Lqa String Ascii List Bool Lia.
From Stdlib Require Import Floats Uint63 DecimalString.
From stdpp Require Import gmap strings.

(* A decimal float literal denotes the nearest binary64 number, as in
   Python. *)
#[local] Set Warnings "-inexact-float".

Local Open Scope string_scope.
Local Open Scope list_scope.
Local Open Scope Z_scope.

(* ===================================================================== *)
(** * Python strings *)
(* ===================================================================== *)

Module PyStr.

(** Bytes [10xxxxxx] continue a code point started earlier. *)
Definition is_continuation (c : ascii) : bool :=
  let n := N_of_ascii c in ((128 <=? n) && (n <? 192))%N.

(** [len(s)]: the number of code points. *)
Fixpoint py_len (s : string) : nat :=
  match s with
  | EmptyString => 0%nat
  | String c s' => if is_continuation c then py_len s' else S (py_len s')
  end.

(** [s[:n]]: the first [n] code points. *)
Fixpoint slice_to (n : nat) (s : string) : string :=
  match s with
  | EmptyString => EmptyString
  | String c s' =>
      if is_continuation c then String c (slice_to n s')
      else match n with
           | O => EmptyString
           | S n' => String c (slice_to n' s')
           end
  end.

Definition is_upper (c : ascii) : bool :=
  let n := N_of_ascii c in ((65 <=? n) && (n <=? 90))%N.

Definition is_lower (c : ascii) : bool :=
  let n := N_of_ascii c in ((97 <=? n) && (n <=? 122))%N.

Definition lower_char (c : ascii) : ascii :=
  if is_upper c then ascii_of_N (N_of_ascii c + 32) else c.

Definition upper_char (c : ascii) : ascii :=
  if is_lower c then ascii_of_N (N_of_ascii c - 32) else c.

(** [s.lower()] and [s.upper()]. *)
Fixpoint py_lower (s : string) : string :=
  match s with
  | EmptyString => EmptyString
  | String c s' => String (lower_char c) (py_lower s')
  end.

Fixpoint py_upper (s : string) : string :=
  match s with
  | EmptyString => EmptyString
  | String c s' => String (upper_char c) (py_upper s')
  end.

(** [s.replace(a, b)] for one-character [a] and [b]. *)
Fixpoint py_replace (a b : ascii) (s : string) : string :=
  match s with
  | EmptyString => EmptyString
  | String c s' =>
      String (if Ascii.eqb c a then b else c) (py_replace a b s')
  end.

(** [s.title()]: a cased character is upper-cased when the previous
    character is not cased, and lower-cased otherwise. *)
Fixpoint title_from (previous_is_cased : bool) (s : string) : string :=
  match s with
  | EmptyString => EmptyString
  | String c s' =>
      if is_lower c || is_upper c then
        String (if previous_is_cased then lower_char c else upper_char c)
               (title_from true s')
      else String c (title_from false s')
  end.

Definition py_title (s : string) : string := title_from false s.

(** [str(n)] for an [int]. *)
Definition str_of_int (z : Z) : string :=
  NilZero.string_of_int (Z.to_int z).

(** [str(n).zfill(w)] for a non-negative [n], as [strftime] pads. *)
Fixpoint zeros (n : nat) : string :=
  match n with
  | O => EmptyString
  | S n' => String "0" (zeros n')
  end.

Definition zfill (width : nat) (s : string) : string :=
  zeros (width - String.length s) +:+ s.

End PyStr.

(* ===================================================================== *)
(** * The records exchanged between the components *)
(* ===================================================================== *)

(** An axe-core node: raw evidence, only counted and copied. *)
Definition node := string.

(** One entry of axe-core's [violations], [incomplete] or [passes]. *)
Record axe_rule := {
  r_id : option string;
  r_impact : option string;
  r_description : option string;
  r_help : option string;
  r_helpUrl : option string;
  r_tags : option (list string);
  r_nodes : option (list node)
}.

(** The [axe_data] dict. *)
Record axe_results := {
  ax_violations : option (list axe_rule);
  ax_incomplete : option (list axe_rule);
  ax_passes : option (list axe_rule)
}.

(** An issue dict, as the checkers build it and the tracker reads it. *)
Record issue := {
  i_type : option string;
  i_title : option string;
  i_count : option Z;
  i_description : option string;
  i_help : option string;
  i_helpUrl : option string;
  i_impact : option string;
  i_fix : option string;
  i_category : option string;
  i_nodes : option (list node);
  i_tags : option (list string)
}.

(** The result dict of an analysis ([url] or [filename] is [subject]). *)
Record analysis := {
  subject : string;
  score : Z;
  issues : list issue;
  summary : string;
  method : string;
  violation_count : option Z;
  warning_count : option Z;
  pass_count : option Z
}.

(** [len(l)] *)
Definition len {A : Type} (l : list A) : Z := Z.of_nat (List.length l).

(** [d.get(key, dflt)] on an optional field. *)
Definition get {A : Type} (field : option A) (dflt : A) : A :=
  match field with
  | Some x => x
  | None => dflt
  end.

(* ===================================================================== *)
(** * accessibility_checker.py *)
(* ===================================================================== *)

Module AccessibilityChecker.

(** The penalty subtracted in the loop of [_calculate_score]. *)
Definition impact_penalty (impact : string) : Z :=
  if String.eqb impact "critical" then 15
  else if String.eqb impact "serious" then 10
  else if String.eqb impact "moderate" then 7
  else 4.

Definition violation_impact (v : axe_rule) : string :=
  PyStr.py_lower (get (r_impact v) "moderate").

(** [int -> float], exact below 2^53. *)
Definition float_of_int (z : Z) : float :=
  PrimFloat.of_uint63 (Uint63.of_Z z).

(** [len(passes) / total] *)
Definition pass_rate (passes total : Z) : float :=
  (float_of_int passes / float_of_int total)%float.

(** The message printed when the score is below 90 is not part of the
    result and is left out. *)
Definition _calculate_score (violations incomplete passes : list axe_rule) : Z :=
  let total := len violations + len incomplete + len passes in
  if total =? 0 then 100
  else
    let score := 100 in
    let score :=
      fold_left (fun score v => score - impact_penalty (violation_impact v))
                violations score in
    let score := score - len incomplete * 3 in
    let score :=
      if (0.95 <? pass_rate (len passes) total)%float then score + 5
      else score in
    let score := Z.max 60 (Z.min 100 score) in
    score.

Definition fixes : gmap string string :=
  list_to_map [
    ("document-title", "Add a descriptive <title> element in the <head> section.");
    ("image-alt", "Add alt text to images. Use alt='' for decorative images.");
    ("html-has-lang", "Add lang attribute to <html> tag, e.g., <html lang='en'>.");
    ("color-contrast", "Increase color contrast ratio to at least 4.5:1.");
    ("link-name", "Links should have descriptive text content.");
    ("button-name", "Buttons should have accessible names.");
    ("label", "Form inputs should have associated <label> elements.");
    ("aria-hidden-focus", "Don't hide focusable elements from screen readers.")
  ].

Definition _get_fix_suggestion (issue_id : string) : string :=
  get (fixes !! issue_id) "Review WCAG guidelines and fix accordingly.".

(** [tag in tags] *)
Definition contains (tags : list string) (tag : string) : bool :=
  existsb (String.eqb tag) tags.

Definition _get_category (tags : list string) : string :=
  if contains tags "cat.color" then "Color"
  else if contains tags "cat.forms" then "Forms"
  else if contains tags "cat.images" then "Images"
  else if contains tags "cat.language" then "Language"
  else if contains tags "cat.structure" then "Structure"
  else "General".

Definition _generate_summary
    (violations incomplete : list axe_rule) (score : Z) : string :=
  let '(emoji, text) :=
    if 90 <=? score then ("✅", "Excellent")
    else if 70 <=? score then ("⚠️", "Good")
    else if 50 <=? score then ("🔧", "Needs Work")
    else ("❌", "Poor") in
  emoji +:+ " " +:+ text +:+ " - Score: " +:+ PyStr.str_of_int score +:+ "/100. "
    +:+ PyStr.str_of_int (len violations) +:+ " violations, "
    +:+ PyStr.str_of_int (len incomplete) +:+ " warnings.".

Definition violation_issue (violation : axe_rule) : issue :=
  let node_count := len (get (r_nodes violation) []) in
  {| i_type := Some "critical";
     i_title := Some (PyStr.py_title
                 (PyStr.py_replace "-" " " (get (r_id violation) "Violation")));
     i_count := Some node_count;
     i_description := Some (get (r_description violation) "");
     i_help := Some (get (r_help violation) "");
     i_helpUrl := Some (get (r_helpUrl violation) "");
     i_impact := Some (get (r_impact violation) "moderate");
     i_fix := Some (_get_fix_suggestion (get (r_id violation) ""));
     i_category := Some (_get_category (get (r_tags violation) []));
     i_nodes := Some (firstn 2 (get (r_nodes violation) []));
     i_tags := None |}.

Definition incomplete_issue (item : axe_rule) : issue :=
  let node_count := len (get (r_nodes item) []) in
  {| i_type := Some "warning";
     i_title := Some (PyStr.py_title
                 (PyStr.py_replace "-" " " (get (r_id item) "Review")));
     i_count := Some node_count;
     i_description := Some ("Needs review: " +:+ get (r_description item) "");
     i_help := None;
     i_helpUrl := None;
     i_impact := Some (get (r_impact item) "moderate");
     i_fix := Some "Manual review required.";
     i_category := Some (_get_category (get (r_tags item) []));
     i_nodes := None;
     i_tags := None |}.

Definition _process_axe_results (url : string) (axe_data : axe_results) : analysis :=
  let violations := get (ax_violations axe_data) [] in
  let incomplete := get (ax_incomplete axe_data) [] in
  let passes := get (ax_passes axe_data) [] in
  let issues := [] in
  let issues := issues ++ map violation_issue violations in
  let issues := issues ++ map incomplete_issue incomplete in
  let score := _calculate_score violations incomplete passes in
  {| subject := url;
     score := score;
     issues := firstn 20 issues;
     summary := _generate_summary violations incomplete score;
     method := "axe-core";
     violation_count := Some (len violations);
     warning_count := Some (len incomplete);
     pass_count := Some (len passes) |}.

Definition _error_result (url error : string) : analysis :=
  {| subject := url;
     score := 0;
     issues := [ {| i_type := Some "critical";
                    i_title := Some "Analysis Failed";
                    i_count := Some 1;
                    i_description := Some (PyStr.slice_to 100 error);
                    i_help := None;
                    i_helpUrl := None;
                    i_impact := None;
                    i_fix := Some "Try again with a different URL";
                    i_category := Some "Error";
                    i_nodes := None;
                    i_tags := None |} ];
     summary := "Failed: " +:+ PyStr.slice_to 50 error;
     method := "error";
     violation_count := None;
     warning_count := None;
     pass_count := None |}.

End AccessibilityChecker.

(* ===================================================================== *)
(** * templates/scoring.py *)
(* ===================================================================== *)

Module AccessibilityScorer.

(** Binary64 arithmetic on the rationals: every operation is the exact
    one followed by rounding.  [rnd] is the rounding to the nearest
    binary64 number and [powf x n] is what the C library's [pow] returns
    for [x ** n]; neither is fixed here, the theorems say what they need
    of them.  Integers are converted exactly. *)
Section Binary64.

Variable rnd : Q -> Q.
Variable powf : Q -> Z -> Q.

(** a float literal *)
Definition lit (q : Q) : Q := rnd q.

Definition fadd (x y : Q) : Q := rnd (x + y).
Definition fsub (x y : Q) : Q := rnd (x - y).
Definition fmul (x y : Q) : Q := rnd (x * y).

(** [min(x, y)]: [y] when [y < x], else [x]. *)
Definition fmin (x y : Q) : Q := if Qlt_le_dec y x then y else x.

(** [int(x)]: truncation towards zero. *)
Definition int_of_float (x : Q) : Z :=
  if Qlt_le_dec x 0 then Qceiling x else Qfloor x.

(** The weight literal chosen by the impact. *)
Definition impact_weight (impact : string) : Q :=
  if String.eqb impact "critical" then 0.8
  else if String.eqb impact "serious" then 0.6
  else if String.eqb impact "moderate" then 0.4
  else 0.2.

Definition violation_impact (violation : axe_rule) : string :=
  PyStr.py_lower (get (r_impact violation) "moderate").

Definition node_factor (nodes_count : Z) : Q :=
  fmin 1 (fadd (lit 0.2)
               (fmul (lit 0.8) (fsub 1 (powf (lit 0.9) nodes_count)))).

(** [deduction] of one pass of the loop over the violations. *)
Definition deduction (violation : axe_rule) : Q :=
  let impact := violation_impact violation in
  let nodes_count := len (get (r_nodes violation) []) in
  let weight := lit (impact_weight impact) in
  fmul (fmul 10 weight) (node_factor nodes_count).

(** What the loop over the incomplete items subtracts. *)
Definition incomplete_deduction (item : axe_rule) : Q :=
  fmul 2 (fmin 1 (fmul (lit 0.5)
             (fsub 1 (powf (lit 0.95) (len (get (r_nodes item) [])))))).

Definition calculate_score (axe_data : axe_results) : Z :=
  let violations := get (ax_violations axe_data) [] in
  let incomplete := get (ax_incomplete axe_data) [] in
  let passes := get (ax_passes axe_data) [] in
  let total_checks := len violations + len incomplete + len passes in
  if total_checks =? 0 then 100
  else
    let base_score := 100%Q in
    let base_score :=
      fold_left (fun base_score violation =>
                   fsub base_score (deduction violation))
                violations base_score in
    let base_score :=
      fold_left (fun base_score item =>
                   fsub base_score (incomplete_deduction item))
                incomplete base_score in
    let pass_bonus := fmul (inject_Z (len passes)) (lit 0.5) in
    let base_score := fadd base_score (fmin 20 pass_bonus) in
    Z.max 0 (Z.min 100 (int_of_float base_score)).

End Binary64.

(** Exact arithmetic: no rounding, and the mathematical power. *)
Definition exact_rnd (q : Q) : Q := q.
Definition exact_pow (x : Q) (n : Z) : Q := Qpower x n.

End AccessibilityScorer.

(* ===================================================================== *)
(** * pdf_analyzer.py *)
(* ===================================================================== *)

Module PDFAccessibilityChecker.

(** [issue.get("type") == t] *)
Definition type_is (i : issue) (t : string) : bool :=
  match i_type i with
  | Some s => String.eqb s t
  | None => false
  end.

Definition _calculate_score (issues : list issue) (element_count : Z) : Z :=
  let score := 100 in
  let score :=
    fold_left (fun score issue =>
                 if type_is issue "critical" then score - 15
                 else if type_is issue "warning" then score - 5
                 else score)
              issues score in
  let score := if 10 <? element_count then score + 5 else score in
  let score := if score <? 30 then 30 else score in
  let score := if 100 <? score then 100 else score in
  score.

Definition _error_result (filename error : string) : analysis :=
  {| subject := filename;
     score := 0;
     issues := [ {| i_type := Some "critical";
                    i_title := Some "Analysis Failed";
                    i_count := Some 1;
                    i_description := Some (PyStr.slice_to 100 error);
                    i_help := None;
                    i_helpUrl := None;
                    i_impact := None;
                    i_fix := Some "Try a different file or format";
                    i_category := Some "Error";
                    i_nodes := None;
                    i_tags := None |} ];
     summary := "Analysis failed: " +:+ PyStr.slice_to 50 error;
     method := "error";
     violation_count := None;
     warning_count := None;
     pass_count := None |}.

End PDFAccessibilityChecker.

(* ===================================================================== *)
(** * compliance_tracker.py *)
(* ===================================================================== *)

(** [datetime]: a naive local time, as the proleptic Gregorian ordinal of
    its day ([date.toordinal], day 1 is 0001-01-01) and the second of that
    day. *)
Module Datetime.

Record datetime := { ordinal : Z; second_of_day : Z }.

(** [t + timedelta(days=n)] *)
Definition add_days (t : datetime) (n : Z) : datetime :=
  {| ordinal := ordinal t + n; second_of_day := second_of_day t |}.

(** Year, month and day of an ordinal. *)
Definition ymd (n : Z) : Z * Z * Z :=
  let z := n + 305 in                      (* days since 0000-03-01 *)
  let era := z / 146097 in
  let doe := z - era * 146097 in
  let yoe := (doe - doe / 1460 + doe / 36524 - doe / 146096) / 365 in
  let doy := doe - (365 * yoe + yoe / 4 - yoe / 100) in
  let mp := (5 * doy + 2) / 153 in
  let d := doy - (153 * mp + 2) / 5 + 1 in
  let m := if mp <? 10 then mp + 3 else mp - 9 in
  let y := yoe + era * 400 in
  (if m <=? 2 then y + 1 else y, m, d).

(** A number padded with zeros, as [strftime] prints the month, the day,
    the time and a year of four digits. *)
Definition field (width : nat) (z : Z) : string :=
  PyStr.zfill width (PyStr.str_of_int z).

(** [t.strftime("%Y-%m-%d")] *)
Definition strftime_date (t : datetime) : string :=
  let '(y, m, d) := ymd (ordinal t) in
  field 4 y +:+ "-" +:+ field 2 m +:+ "-" +:+ field 2 d.

Definition hms (t : datetime) : Z * Z * Z :=
  let s := second_of_day t in
  (s / 3600, (s / 60) mod 60, s mod 60).

(** [t.strftime("%Y%m%d_%H%M%S")] *)
Definition strftime_stamp (t : datetime) : string :=
  let '(y, m, d) := ymd (ordinal t) in
  let '(hh, mm, ss) := hms t in
  field 4 y +:+ field 2 m +:+ field 2 d +:+ "_"
    +:+ field 2 hh +:+ field 2 mm +:+ field 2 ss.

(** [t.strftime("%Y-%m-%d %H:%M:%S")] *)
Definition strftime_datetime (t : datetime) : string :=
  let '(hh, mm, ss) := hms t in
  strftime_date t +:+ " " +:+ field 2 hh +:+ ":" +:+ field 2 mm
    +:+ ":" +:+ field 2 ss.

End Datetime.

Module UniversityComplianceTracker.
Import Datetime.

(** The [results] dict handed to [generate_report]. *)
Record results := {
  res_score : option Z;
  res_issues : option (list issue)
}.

Definition results_of (a : analysis) : results :=
  {| res_score := Some (score a); res_issues := Some (issues a) |}.

(** The [report] dict, which [json.dump] writes as it is. *)
Record report := {
  institution : string;
  timestamp : string;
  url : string;
  department : string;
  rep_score : Z;
  compliance_status : string;
  wcag_level : string;
  critical_issues : Z;
  total_issues : Z;
  detailed_issues : list issue;
  auditor : string;
  next_audit_date : string;
  legal_references : list string
}.

(** A file is the JSON report or the rows of the CSV sheet. *)
Inductive file :=
| Json (r : report)
| Csv (rows : list (list string)).

(** The world the tracker acts on: the clock, of which the [k]-th call
    of [datetime.now()] returns [clock k], the number of calls made so
    far, and the files by name.  The output directory, which [__init__]
    creates when it is absent, is only the prefix of the file names. *)
Record world := {
  clock : nat -> datetime;
  reads : nat;
  files : gmap string file
}.

Definition IO (A : Type) : Type := world -> A * world.

Definition ret {A : Type} (a : A) : IO A := fun w => (a, w).

Definition bind {A B : Type} (m : IO A) (k : A -> IO B) : IO B :=
  fun w => let '(a, w') := m w in k a w'.

Notation "'do' x <- m ; k" := (bind m (fun x => k))
  (at level 10, x name, m at level 100, k at level 200).
Notation "'exec' m ; k" := (bind m (fun _ => k))
  (at level 10, m at level 100, k at level 200).

(** [datetime.now()] *)
Definition now : IO datetime :=
  fun w => (clock w (reads w),
            {| clock := clock w; reads := S (reads w); files := files w |}).

(** [open(name, 'w')] and the writes until it is closed. *)
Definition write_file (name : string) (f : file) : IO unit :=
  fun w => (tt, {| clock := clock w; reads := reads w;
                   files := <[name := f]> (files w) |}).

Definition _get_compliance_status (score : Z) : string :=
  if 95 <=? score then "COMPLIANT - Excellent"
  else if 90 <=? score then "COMPLIANT - Good"
  else if 80 <=? score then "PARTIALLY COMPLIANT - Needs Improvement"
  else if 70 <=? score then "NON-COMPLIANT - Significant Issues"
  else "NON-COMPLIANT - Critical Remediation Required".

(** [issue.get("type") == t] *)
Definition type_is (i : issue) (t : string) : bool :=
  match i_type i with
  | Some s => String.eqb s t
  | None => false
  end.

Fixpoint _determine_wcag_level (issues : list issue) : string :=
  match issues with
  | [] => "WCAG 2.1 AA (Target)"
  | issue :: rest =>
      let tags := get (i_tags issue) [] in
      if existsb (String.eqb "wcag2aa") tags && type_is issue "critical"
      then "WCAG 2.0 A (Minimum)"
      else _determine_wcag_level rest
  end.

Definition _get_next_audit_date : IO string :=
  do t <- now;
  let next_date := add_days t 90 in
  ret (strftime_date next_date).

(** The due date of one row of the sheet. *)
Definition due_date_of (issue : issue) : IO string :=
  let severity := get (i_type issue) "warning" in
  if String.eqb severity "critical" then ret "IMMEDIATE"
  else if String.eqb severity "warning" then
    do t <- now; ret (strftime_date (add_days t 30))
  else
    do t <- now; ret (strftime_date (add_days t 60)).

Definition issue_row (issue : issue) : IO (list string) :=
  do due_date <- due_date_of issue;
  ret [ PyStr.py_upper (get (i_type issue) "");
        get (i_title issue) "";
        PyStr.slice_to 100 (get (i_description issue) "");
        get (i_category issue) "General";
        get (i_fix issue) "Review required";
        due_date ].

(** The loop over [report["detailed_issues"]]. *)
Fixpoint issue_rows (issues : list issue) : IO (list (list string)) :=
  match issues with
  | [] => ret []
  | issue :: rest =>
      do row <- issue_row issue;
      do rows <- issue_rows rest;
      ret (row :: rows)
  end.

Definition _generate_csv_report
    (output_dir : string) (report : report) (timestamp : string) : IO unit :=
  let csv_file := output_dir +:+ "/compliance_" +:+ timestamp +:+ ".csv" in
  do generated <- now;
  let head :=
    [ [ "University Accessibility Compliance Report" ];
      [ "Generated:"; strftime_datetime generated ];
      [];
      [ "SUMMARY" ];
      [ "URL"; url report ];
      [ "Department"; department report ];
      [ "Score"; PyStr.str_of_int (rep_score report) +:+ "/100" ];
      [ "Compliance Status"; compliance_status report ];
      [ "WCAG Level"; wcag_level report ];
      [ "Critical Issues"; PyStr.str_of_int (critical_issues report) ];
      [ "Total Issues"; PyStr.str_of_int (total_issues report) ];
      [ "Next Audit Due"; next_audit_date report ];
      [];
      [ "DETAILED ISSUES" ];
      [ "Type"; "Title"; "Description"; "WCAG Criteria"; "Fix Required";
        "Due Date" ] ] in
  do rows <- issue_rows (detailed_issues report);
  write_file csv_file (Csv (head ++ rows)).

Definition generate_report
    (output_dir url : string) (results : results) (department : string)
    : IO string :=
  do t <- now;
  let timestamp := strftime_stamp t in
  let filename := output_dir +:+ "/compliance_" +:+ timestamp +:+ ".json" in
  do next_audit <- _get_next_audit_date;
  let report :=
    {| institution := "University Accessibility Audit";
       timestamp := timestamp;
       url := url;
       department := department;
       rep_score := get (res_score results) 0;
       compliance_status :=
         _get_compliance_status (get (res_score results) 0);
       wcag_level := _determine_wcag_level (get (res_issues results) []);
       critical_issues :=
         len (List.filter (fun i => type_is i "critical")
                          (get (res_issues results) []));
       total_issues := len (get (res_issues results) []);
       detailed_issues := get (res_issues results) [];
       auditor := "A11y Wizard";
       next_audit_date := next_audit;
       legal_references :=
         [ "ADA Title II"; "Section 508"; "WCAG 2.1 AA";
           "OCR Resolution Agreements" ] |} in
  exec write_file filename (Json report);
  exec _generate_csv_report output_dir report timestamp;
  ret filename.

End UniversityComplianceTracker.


(* ===================================================================== *)
(** * templates/scoring.py: the letter grade *)
(* ===================================================================== *)

Module AccessibilityScorerGrade.

(** The labels are the texts of the source file, character for
    character. *)
Definition get_grade (score : Z) : string * string :=
  if 95 <=? score then ("A+", "ğŸ† Excellent")
  else if 90 <=? score then ("A", "âœ… Very Good")
  else if 85 <=? score then ("A-", "ğŸ‘ Good")
  else if 80 <=? score then ("B+", "âš ï¸ Above Average")
  else if 75 <=? score then ("B", "âš ï¸ Average")
  else if 70 <=? score then ("B-", "âš ï¸ Below Average")
  else if 60 <=? score then ("C", "ğŸ”§ Needs Work")
  else if 50 <=? score then ("D", "ğŸš¨ Poor")
  else ("F", "ğŸš¨ Very Poor").

End AccessibilityScorerGrade.

(* ===================================================================== *)
(** * More of Python's strings and paths *)
(* ===================================================================== *)

Module PyText.

(** [needle in s] *)
Fixpoint contains_text (needle s : string) : bool :=
  String.prefix needle s
  || match s with
     | EmptyString => false
     | String _ rest => contains_text needle rest
     end.

(** The line feed. *)
Definition newline : ascii := ascii_of_N 10.

(** [s.split(sep)] for a separator of one character. *)
Fixpoint split_on (sep : ascii) (s : string) : list string :=
  match s with
  | EmptyString => [EmptyString]
  | String c rest =>
      if Ascii.eqb c sep then EmptyString :: split_on sep rest
      else match split_on sep rest with
           | first :: others => String c first :: others
           | [] => [String c EmptyString]
           end
  end.

(** [len(s.strip()) > 0]: some character of [s] is not white space.  The
    white space of Python is U+0009 to U+000D, U+001C to U+0020, U+0085,
    U+00A0, U+1680, U+2000 to U+200A, U+2028, U+2029, U+202F, U+205F and
    U+3000, here in UTF-8. *)
Fixpoint has_visible (s : string) : bool :=
  match s with
  | EmptyString => false
  | String c rest =>
      let n := N_of_ascii c in
      if ((9 <=? n) && (n <=? 13) || (28 <=? n) && (n <=? 32))%N then
        has_visible rest
      else
        match rest with
        | String d rest1 =>
            let m := N_of_ascii d in
            if ((n =? 194) && ((m =? 133) || (m =? 160)))%N then
              has_visible rest1
            else
              match rest1 with
              | String e rest2 =>
                  let k := N_of_ascii e in
                  if ((n =? 225) && (m =? 154) && (k =? 128)
                      || (n =? 226) && (m =? 128)
                         && ((128 <=? k) && (k <=? 138)
                             || (k =? 168) || (k =? 169) || (k =? 175))
                      || (n =? 226) && (m =? 129) && (k =? 159)
                      || (n =? 227) && (m =? 128) && (k =? 128))%N
                  then has_visible rest2
                  else true
              | EmptyString => true
              end
        | EmptyString => true
        end
  end.

(** [s.rfind(c)] for a character: the index of its last occurrence, or
    -1. *)
Fixpoint rfind_from (c : ascii) (s : string) (i found : Z) : Z :=
  match s with
  | EmptyString => found
  | String a rest =>
      rfind_from c rest (i + 1) (if Ascii.eqb a c then i else found)
  end.

Definition rfind (c : ascii) (s : string) : Z := rfind_from c s 0 (-1).

(** [s[lo:hi]] and [s[lo:]] for [0 <= lo <= hi]. *)
Definition slice (lo hi : Z) (s : string) : string :=
  String.substring (Z.to_nat lo) (Z.to_nat (hi - lo)) s.

Definition slice_from (lo : Z) (s : string) : string :=
  String.substring (Z.to_nat lo) (String.length s - Z.to_nat lo) s.

Fixpoint all_dots (s : string) : bool :=
  match s with
  | EmptyString => true
  | String a rest => Ascii.eqb a "." && all_dots rest
  end.

(** [os.path.splitext(p)[1]] of [posixpath]: from the last dot on, when
    that dot comes after the last slash and after a character of the file
    name that is not a dot. *)
Definition splitext_ext (p : string) : string :=
  let sepIndex := rfind "/" p in
  let dotIndex := rfind "." p in
  if (sepIndex <? dotIndex)
     && negb (all_dots (slice (sepIndex + 1) dotIndex p))
  then slice_from dotIndex p
  else EmptyString.

End PyText.

(* ===================================================================== *)
(** * accessibility_checker.py: checking a URL *)
(* ===================================================================== *)

(** What a call that can raise an [Exception] gives: the text of the
    exception, [str(e)], or the value returned. *)
Inductive outcome (A : Type) : Type :=
| Raised (e : string)
| Returned (a : A).

Arguments Raised {A} e.
Arguments Returned {A} a.

Module CheckUrl.
Import AccessibilityChecker.

(** What the fallback reads of a parsed page: the [alt] attribute of each
    [img] element, and the [lang] attribute of the [html] element, when
    there is one. *)
Record html_page := {
  img_alts : list (option string);
  html_lang : option (option string)
}.

(** What [session.get] gives: an exception, or a response with its status
    and, when its text is read and parsed, the page or an exception. *)
Inductive fetch :=
| Failed (e : string)
| Response (status : Z) (body : outcome html_page).

(** [not s] for an attribute that is absent or a text. *)
Definition falsy (attribute : option string) : bool :=
  match attribute with
  | None => true
  | Some s => String.eqb s ""
  end.

Definition simple_issues (page : html_page) : list issue :=
  let issues := [] in
  let images_no_alt := List.filter falsy (img_alts page) in
  let issues :=
    match images_no_alt with
    | [] => issues
    | _ :: _ =>
        issues ++
        [ {| i_type := Some "critical";
             i_title := Some "Missing Image Alt Text";
             i_count := Some (len images_no_alt);
             i_description := Some "Images without alt text";
             i_help := None; i_helpUrl := None; i_impact := None;
             i_fix := Some "Add alt='description' to images";
             i_category := Some "Images";
             i_nodes := None; i_tags := None |} ]
    end in
  let issues :=
    if match html_lang page with
       | None => true
       | Some lang => falsy lang
       end
    then
      issues ++
      [ {| i_type := Some "critical";
           i_title := Some "Missing Language Attribute";
           i_count := Some 1;
           i_description := Some "HTML missing lang attribute";
           i_help := None; i_helpUrl := None; i_impact := None;
           i_fix := Some "Add lang='en' to <html> tag";
           i_category := Some "Page Structure";
           i_nodes := None; i_tags := None |} ]
    else issues in
  issues.

Definition _check_with_simple (url : string) (fetched : fetch) : analysis :=
  match fetched with
  | Failed e => _error_result url ("Simple checker failed: " +:+ e)
  | Response status body =>
      if status =? 403 then
        _error_result url "Website blocked access (403 Forbidden)"
      else if negb (status =? 200) then
        _error_result url ("HTTP " +:+ PyStr.str_of_int status)
      else
        match body with
        | Raised e => _error_result url ("Simple checker failed: " +:+ e)
        | Returned page =>
            let issues := simple_issues page in
            let score := Z.max 0 (100 - len issues * 15) in
            {| subject := url;
               score := score;
               issues := issues;
               summary := "Simple check found " +:+ PyStr.str_of_int (len issues)
                            +:+ " issues";
               method := "simple";
               violation_count := None;
               warning_count := None;
               pass_count := None |}
        end
  end.

(** [_check_with_playwright]: the browser and axe-core give the results
    or raise. *)
Definition _check_with_playwright (url : string) (scan : outcome axe_results)
    : outcome analysis :=
  match scan with
  | Raised e => Raised e
  | Returned results => Returned (_process_axe_results url results)
  end.

(** [url.startswith(('http://', 'https://'))] *)
Definition has_scheme (url : string) : bool :=
  String.prefix "http://" url || String.prefix "https://" url.

(** [check_url]: [playwright] is [None] when Playwright could not be
    imported, and else what the scan gives. *)
Definition check_url
    (playwright : option (outcome axe_results)) (fetched : fetch)
    (url : string) : analysis :=
  let url := if negb (has_scheme url) then "https://" +:+ url else url in
  match playwright with
  | Some scan =>
      match _check_with_playwright url scan with
      | Returned r => r
      | Raised _ => _check_with_simple url fetched
      end
  | None => _check_with_simple url fetched
  end.

End CheckUrl.

(* ===================================================================== *)
(** * app.py: the answer to a URL analysis *)
(* ===================================================================== *)

Module App.

(** The body of the answer of [analyze_url]: the results, or the message
    for a site that blocks the scanner. *)
Inductive answer :=
| Results (r : analysis)
| Blocked (error : string) (score : Z) (issues : list issue) (summary : string).

Definition analyze_url
    (playwright : option (outcome axe_results)) (fetched : CheckUrl.fetch)
    (url : string) : answer :=
  let results := CheckUrl.check_url playwright fetched url in
  if (score results =? 0)
     && PyText.contains_text "blocked" (PyStr.py_lower (summary results))
  then
    Blocked
      "Website blocked the accessibility scanner. Try a different site or use document upload."
      0 [] "Blocked by website security"
  else Results results.

End App.

(* ===================================================================== *)
(** * pdf_analyzer.py: the analyses of documents *)
(* ===================================================================== *)

Module DocumentChecker.
Import PDFAccessibilityChecker.

(** What [PyPDF2.PdfReader] gives of a file: the metadata, the outline
    and, for each page, what [extract_text] gives. *)
Record pdf_reader := {
  metadata : option (gmap string string);
  outline : list string;
  pages : list (outcome string)
}.

(** What reading the file at [file_path] gives, as a PDF and as a text. *)
Record opened_file := {
  as_pdf : outcome pdf_reader;
  as_text : outcome string
}.

(** The result dict of a document, with the keys that only some analyses
    set. *)
Record document_analysis := {
  result : analysis;
  page_count : option Z;
  has_text : option bool;
  line_count : option Z;
  char_count : option Z
}.

Definition failed (filename error : string) : document_analysis :=
  {| result := _error_result filename error;
     page_count := None; has_text := None;
     line_count := None; char_count := None |}.

(** An issue dict with the six keys the document analyses set. *)
Definition finding
    (kind title : string) (count : Z) (description remedy category : string)
    : issue :=
  {| i_type := Some kind; i_title := Some title; i_count := Some count;
     i_description := Some description; i_help := None; i_helpUrl := None;
     i_impact := None; i_fix := Some remedy; i_category := Some category;
     i_nodes := None; i_tags := None |}.

(** [not pdf_reader.metadata or not pdf_reader.metadata.get('/Title')] *)
Definition no_title (reader : pdf_reader) : bool :=
  match metadata reader with
  | None => true
  | Some m =>
      bool_decide (m = ∅)
      || match m !! "/Title" with
         | None => true
         | Some title => String.eqb title ""
         end
  end.

(** The loop over the first pages, which stops at the first page with
    text; a page whose text cannot be extracted raises. *)
Fixpoint find_text (pages : list (outcome string)) : outcome bool :=
  match pages with
  | [] => Returned false
  | Raised e :: _ => Raised e
  | Returned text :: rest =>
      if PyText.has_visible text then Returned true else find_text rest
  end.

Definition _analyze_pdf (filename : string) (opened : outcome pdf_reader)
    : document_analysis :=
  match opened with
  | Raised e => failed filename ("PDF analysis error: " +:+ e)
  | Returned reader =>
      let issues := [] in
      let issues :=
        if no_title reader then
          issues ++ [ finding "critical" "Missing Document Title" 1
                        "PDF missing title in document properties"
                        "Add a title in PDF properties (File → Properties)"
                        "Document Structure" ]
        else issues in
      let issues :=
        match outline reader with
        | [] =>
            issues ++ [ finding "warning" "No Document Bookmarks" 1
                          "PDF lacks bookmarks for navigation"
                          "Add bookmarks for major sections"
                          "Navigation" ]
        | _ :: _ => issues
        end in
      let page_count := len (pages reader) in
      match find_text (firstn 3 (pages reader)) with
      | Raised e => failed filename ("PDF analysis error: " +:+ e)
      | Returned has_text =>
          let issues :=
            if negb has_text then
              issues ++ [ finding "critical" "Scanned/Image PDF" 1
                            "PDF appears to be scanned images without selectable text"
                            "Use OCR to create searchable text"
                            "Text" ]
            else issues in
          let score := _calculate_score issues page_count in
          {| result :=
               {| subject := filename;
                  score := score;
                  issues := issues;
                  summary := "PDF analysis: " +:+ PyStr.str_of_int (len issues)
                               +:+ " issues found across "
                               +:+ PyStr.str_of_int page_count +:+ " pages";
                  method := "pdf-analysis";
                  violation_count := None;
                  warning_count := None;
                  pass_count := None |};
             page_count := Some page_count;
             has_text := Some has_text;
             line_count := None;
             char_count := None |}
      end
  end.

Definition three_newlines : string :=
  String PyText.newline (String PyText.newline (String PyText.newline EmptyString)).

Definition _analyze_text (filename : string) (read : outcome string)
    : document_analysis :=
  match read with
  | Raised e => failed filename ("Text analysis error: " +:+ e)
  | Returned content =>
      let lines := PyText.split_on PyText.newline content in
      let issues := [] in
      let issues :=
        if (1000 <? Z.of_nat (PyStr.py_len content))
           && PyText.contains_text three_newlines content
        then
          issues ++ [ finding "warning" "Poor Paragraph Spacing" 1
                        "Text file has excessive blank lines"
                        "Use consistent single blank lines between paragraphs"
                        "Formatting" ]
        else issues in
      let long_lines :=
        List.filter (fun line => 100 <? Z.of_nat (PyStr.py_len line)) lines in
      let issues :=
        match long_lines with
        | [] => issues
        | _ :: _ =>
            issues ++ [ finding "warning" "Long Lines" (len long_lines)
                          (PyStr.str_of_int (len long_lines)
                             +:+ " line(s) exceed 100 characters")
                          "Break long lines for better readability"
                          "Readability" ]
        end in
      let score := _calculate_score issues (len lines) in
      {| result :=
           {| subject := filename;
              score := score;
              issues := issues;
              summary := "Text file analysis: " +:+ PyStr.str_of_int (len issues)
                           +:+ " issues found";
              method := "text-analysis";
              violation_count := None;
              warning_count := None;
              pass_count := None |};
         page_count := None;
         has_text := None;
         line_count := Some (len lines);
         char_count := Some (Z.of_nat (PyStr.py_len content)) |}
  end.

(** [analyze_document].  The class has no method [_analyze_word]: the
    function of that name is defined inside [analyze_document], after its
    last [return], so the call for a Word document raises an
    [AttributeError]. *)
Definition analyze_document (filename : string) (file : opened_file)
    : outcome document_analysis :=
  let file_ext := PyStr.py_lower (PyText.splitext_ext filename) in
  if String.eqb file_ext ".pdf" then
    Returned (_analyze_pdf filename (as_pdf file))
  else if String.eqb file_ext ".doc" || String.eqb file_ext ".docx" then
    Raised "'PDFAccessibilityChecker' object has no attribute '_analyze_word'"
  else if String.eqb file_ext ".txt" then
    Returned (_analyze_text filename (as_text file))
  else
    Returned (failed filename ("Unsupported file type: " +:+ file_ext)).

End DocumentChecker.

(* ===================================================================== *)
(** * The vocabulary of the statements *)
(* ===================================================================== *)

(** What one pass of the loop over the issues subtracts. *)
Definition issue_penalty (i : issue) : Z :=
  if PDFAccessibilityChecker.type_is i "critical" then 15
  else if PDFAccessibilityChecker.type_is i "warning" then 5
  else 0.

(** The shape of an error result for the failure text [error]: score 0 and
    a single critical issue whose description is the first 100 characters
    of [error]. *)
Definition is_error_result (error : string) (r : analysis) : Prop :=
  score r = 0
  /\ exists i d rest,
       issues r = [i]
       /\ i_type i = Some "critical"
       /\ i_description i = Some d
       /\ error = d +:+ rest
       /\ PyStr.py_len d = Nat.min 100 (PyStr.py_len error)
       /\ (PyStr.py_len d <= 100)%nat.

(** The four impact values of axe-core. *)
Definition known_impacts : list string :=
  ["critical"; "serious"; "moderate"; "minor"].

(** A violation counts as moderate: Policy A subtracts 7 for it and
    Policy B weighs it by 0.4. *)
Definition treated_as_moderate (v : axe_rule) : Prop :=
  AccessibilityChecker.impact_penalty (AccessibilityChecker.violation_impact v) = 7
  /\ AccessibilityScorer.impact_weight (AccessibilityScorer.violation_impact v)
     = 0.4%Q.

(** A violation counts as minor: Policy A subtracts 4 for it and Policy B
    weighs it by 0.2. *)
Definition treated_as_minor (v : axe_rule) : Prop :=
  AccessibilityChecker.impact_penalty (AccessibilityChecker.violation_impact v) = 4
  /\ AccessibilityScorer.impact_weight (AccessibilityScorer.violation_impact v)
     = 0.2%Q.

(** The violation [v] with its nodes replaced. *)
Definition with_nodes (v : axe_rule) (nodes : list node) : axe_rule :=
  {| r_id := r_id v; r_impact := r_impact v; r_description := r_description v;
     r_help := r_help v; r_helpUrl := r_helpUrl v; r_tags := r_tags v;
     r_nodes := Some nodes |}.

Section ReportVocabulary.
Import Datetime UniversityComplianceTracker.

Definition json_name (output_dir stamp : string) : string :=
  output_dir +:+ "/compliance_" +:+ stamp +:+ ".json".

Definition csv_name (output_dir stamp : string) : string :=
  output_dir +:+ "/compliance_" +:+ stamp +:+ ".csv".

(** The report written under a name, and the rows written under a name. *)
Definition json_report (w : world) (name : string) : option report :=
  match files w !! name with
  | Some (Json r) => Some r
  | _ => None
  end.

Definition csv_rows (w : world) (name : string) : option (list (list string)) :=
  match files w !! name with
  | Some (Csv rows) => Some rows
  | _ => None
  end.

(** The second cell of the first row that starts with [key]. *)
Definition csv_cell (rows : list (list string)) (key : string) : option string :=
  match
    find (fun row => match row with
                     | k :: _ => String.eqb k key
                     | [] => false
                     end) rows
  with
  | Some (_ :: value :: _) => Some value
  | _ => None
  end.

(** The last column of the rows below the fifteen rows of the head. *)
Definition csv_due_dates (rows : list (list string)) : list string :=
  map (fun row => List.last row "") (skipn 15 rows).

(** The due date of a finding when every date is taken from one reference
    time [now]. *)
Definition due_date_at (now : datetime) (i : issue) : string :=
  if type_is i "critical" then "IMMEDIATE"
  else if type_is i "warning" then strftime_date (add_days now 30)
  else strftime_date (add_days now 60).

(** Both outputs use one reference time for the due dates: the dates of
    the sheet are those counted from the time the report was generated,
    which is the time of the timestamp of the structured output. *)
Definition due_dates_share_generation_time
    (output_dir url : string) (results : results) (department : string)
    (w : world) : Prop :=
  let generated := clock w (reads w) in
  let stamp := strftime_stamp generated in
  let w' := snd (generate_report output_dir url results department w) in
  exists r rows,
    json_report w' (json_name output_dir stamp) = Some r
    /\ csv_rows w' (csv_name output_dir stamp) = Some rows
    /\ csv_due_dates rows = map (due_date_at generated) (detailed_issues r).

(** How soon a finding is due. *)
Inductive urgency :=
| Immediate
| Within (days : Z).

Definition urgency_of (i : issue) : urgency :=
  match i_type i with
  | None => Within 30
  | Some t =>
      if String.eqb t "critical" then Immediate
      else if String.eqb t "warning" then Within 30
      else Within 60
  end.

(** The due dates when each finding that is not immediate is dated from
    the next reading of the clock, [k] readings having been made. *)
Fixpoint due_dates_by_clock
    (clock : nat -> datetime) (k : nat) (issues : list issue) : list string :=
  match issues with
  | [] => []
  | i :: rest =>
      match urgency_of i with
      | Immediate => "IMMEDIATE" :: due_dates_by_clock clock k rest
      | Within days =>
          strftime_date (add_days (clock k) days)
            :: due_dates_by_clock clock (S k) rest
      end
  end.

(** A clock that passes midnight after its first reading: 23:59:59 on
    2024-01-31, then 00:00:00 on 2024-02-01. *)
Definition midnight_clock (k : nat) : datetime :=
  match k with
  | O => {| ordinal := 738916; second_of_day := 86399 |}
  | S _ => {| ordinal := 738917; second_of_day := 0 |}
  end.

Definition one_warning : results :=
  {| res_score := Some 95;
     res_issues :=
       Some [ {| i_type := Some "warning"; i_title := Some "Long Lines";
                 i_count := Some 1; i_description := Some "1 line(s) exceed 100 characters";
                 i_help := None; i_helpUrl := None; i_impact := None;
                 i_fix := Some "Break long lines for better readability";
                 i_category := Some "Readability"; i_nodes := None;
                 i_tags := None |} ] |}.

Definition midnight_world : world :=
  {| clock := midnight_clock; reads := 0%nat; files := ∅ |}.

End ReportVocabulary.

(** What an issue of a web scan looks like: its type is "critical" or
    "warning", it keeps at most two nodes, and it has no tags. *)
Definition web_issue_shape (i : issue) : Prop :=
  (i_type i = Some "critical" \/ i_type i = Some "warning")
  /\ (List.length (get (i_nodes i) []) <= 2)%nat
  /\ i_tags i = None.

(** The three texts a summary of a web scan can start with. *)
Definition web_summary_labels : list string :=
  ["✅ Excellent"; "⚠️ Good"; "🔧 Needs Work"].

(** An issue that the WCAG level looks for: tagged "wcag2aa" and of
    type "critical". *)
Definition critical_aa (i : issue) : bool :=
  existsb (String.eqb "wcag2aa") (get (i_tags i) [])
  && UniversityComplianceTracker.type_is i "critical".

(** The findings that are dated from the clock: all but the critical
    ones. *)
Definition dated (i : issue) : bool :=
  negb (String.eqb (get (i_type i) "warning") "critical").

(** A world that already holds a file. *)
Definition archive_world : UniversityComplianceTracker.world :=
  {| UniversityComplianceTracker.clock := midnight_clock;
     UniversityComplianceTracker.reads := 7%nat;
     UniversityComplianceTracker.files :=
       {[ "compliance_reports/notes.csv" :=
            UniversityComplianceTracker.Csv [["kept"]] ]} |}.

(* ===================================================================== *)
(** * Properties *)
(* ===================================================================== *)

(** ** Strings *)

Lemma py_len_slice_to (n : nat) (s : string) :
  PyStr.py_len (PyStr.slice_to n s) = Nat.min n (PyStr.py_len s).
Proof.
  revert n; induction s as [|c s IH]; intros n; simpl.
  - now rewrite Nat.min_0_r.
  - destruct (PyStr.is_continuation c) eqn:Hc; simpl.
    + now rewrite Hc, IH.
    + destruct n as [|n]; simpl; [reflexivity|].
      now rewrite Hc, IH.
Qed.

Lemma slice_to_is_prefix (n : nat) (s : string) :
  exists rest, s = PyStr.slice_to n s +:+ rest.
Proof.
  revert n; induction s as [|c s IH]; intros n; simpl.
  - now exists EmptyString.
  - destruct (PyStr.is_continuation c).
    + destruct (IH n) as [rest Hrest]. exists rest.
      change (String c s = String c (PyStr.slice_to n s +:+ rest)).
      congruence.
    + destruct n as [|n].
      * now exists (String c s).
      * destruct (IH n) as [rest Hrest]. exists rest.
        change (String c s = String c (PyStr.slice_to n s +:+ rest)).
        congruence.
Qed.

(** ** Policy A: [AccessibilityChecker._calculate_score] *)

Section PolicyA.
Import AccessibilityChecker.

(** The loop over the violations subtracts the sum of the penalties,
    whatever their order. *)
Lemma deduction_loop (violations : list axe_rule) (start : Z) :
  fold_left (fun score v => score - impact_penalty (violation_impact v))
            violations start
  = start - fold_right Z.add 0
              (map (fun v => impact_penalty (violation_impact v)) violations).
Proof.
  revert start; induction violations as [|v vs IH]; intros start; simpl.
  - lia.
  - rewrite IH. lia.
Qed.

(** C1: Policy A returns an integer between 60 and 100 for every input,
    so for every non-empty one, however many violations it holds. *)
Theorem policy_a_score_in_60_100 (violations incomplete passes : list axe_rule) :
  60 <= _calculate_score violations incomplete passes <= 100.
Proof.
  unfold _calculate_score.
  destruct (len violations + len incomplete + len passes =? 0); [lia|].
  lia.
Qed.

(** C3: one critical violation with three nodes, no incomplete item and
    nineteen passes: the total is 20, the pass rate 19/20 is not above
    0.95, so no bonus is added and the score is 85. *)
Theorem policy_a_worked_example (p : axe_rule) :
  let violation :=
    {| r_id := Some "image-alt"; r_impact := Some "critical";
       r_description := None; r_help := None; r_helpUrl := None;
       r_tags := None; r_nodes := Some ["n1"; "n2"; "n3"] |} in
  let passes := repeat p 19 in
  len [violation] + len (@nil axe_rule) + len passes = 20
  /\ (0.95 <? pass_rate (len passes) 20)%float = false
  /\ _calculate_score [violation] [] passes = 85.
Proof.
  repeat split; vm_compute; reflexivity.
Qed.

End PolicyA.

(** ** Policy C: [PDFAccessibilityChecker._calculate_score] *)

Section PolicyC.
Import PDFAccessibilityChecker.

Lemma issue_loop (issues : list issue) (start : Z) :
  fold_left (fun score issue =>
               if type_is issue "critical" then score - 15
               else if type_is issue "warning" then score - 5
               else score) issues start
  = start - fold_right Z.add 0 (map issue_penalty issues).
Proof.
  revert start; induction issues as [|i l IH]; intros start; simpl.
  - lia.
  - rewrite IH. unfold issue_penalty.
    destruct (type_is i "critical"); [lia|].
    destruct (type_is i "warning"); lia.
Qed.

Lemma type_is_of (i : issue) (t : string) :
  i_type i = Some t -> forall t', type_is i t' = String.eqb t t'.
Proof. intros H t'. unfold type_is. now rewrite H. Qed.

(** C4: Policy C keeps the score between 30 and 100 for every list of
    findings and element count; with at most 10 elements (no content
    bonus) a single critical finding scores 85, and one critical with one
    warning finding, in either order, scores 80. *)
Theorem policy_c_score
    (issues : list issue) (element_count : Z) (c w : issue) (small : Z) :
  i_type c = Some "critical" ->
  i_type w = Some "warning" ->
  small <= 10 ->
  30 <= _calculate_score issues element_count <= 100
  /\ _calculate_score [c] small = 85
  /\ _calculate_score [c; w] small = 80
  /\ _calculate_score [w; c] small = 80.
Proof.
  intros Hc Hw Hsmall.
  assert (Hbonus : (10 <? small) = false) by (apply Z.ltb_ge; lia).
  split.
  - unfold _calculate_score.
    repeat match goal with
           | |- context [if ?b then _ else _] => destruct b eqn:?
           end; lia.
  - unfold _calculate_score; simpl.
    rewrite !(type_is_of c "critical" Hc), !(type_is_of w "warning" Hw), Hbonus.
    simpl. repeat split; reflexivity.
Qed.

Lemma policy_c_score_witness :
  let c := {| i_type := Some "critical"; i_title := Some "Missing Document Title";
              i_count := Some 1; i_description := None; i_help := None;
              i_helpUrl := None; i_impact := None; i_fix := None;
              i_category := Some "Document Structure"; i_nodes := None;
              i_tags := None |} in
  let w := {| i_type := Some "warning"; i_title := Some "No Document Bookmarks";
              i_count := Some 1; i_description := None; i_help := None;
              i_helpUrl := None; i_impact := None; i_fix := None;
              i_category := Some "Navigation"; i_nodes := None;
              i_tags := None |} in
  30 <= _calculate_score [c; c; c; c; c; c] 3 <= 100
  /\ _calculate_score [c] 3 = 85
  /\ _calculate_score [c; w] 3 = 80
  /\ _calculate_score [w; c] 3 = 80.
Proof.
  intros c w.
  apply (policy_c_score [c; c; c; c; c; c] 3 c w 3);
    [reflexivity | reflexivity | lia].
Defined.

End PolicyC.

(** ** The error path: [_error_result] of both checkers *)

Lemma slice_is_error_text (error : string) :
  exists rest,
    error = PyStr.slice_to 100 error +:+ rest
    /\ PyStr.py_len (PyStr.slice_to 100 error) = Nat.min 100 (PyStr.py_len error)
    /\ (PyStr.py_len (PyStr.slice_to 100 error) <= 100)%nat.
Proof.
  destruct (slice_to_is_prefix 100 error) as [rest Hrest].
  exists rest. split; [exact Hrest|].
  rewrite py_len_slice_to. split; [reflexivity | apply Nat.le_min_l].
Qed.

(** C5: for every failure reason, the error result of the web checker and
    of the document checker has score 0 and exactly one finding, which is
    critical and whose description is the reason cut to at most 100
    characters. *)
Theorem error_result_shape (subject error : string) :
  is_error_result error (AccessibilityChecker._error_result subject error)
  /\ is_error_result error (PDFAccessibilityChecker._error_result subject error).
Proof.
  destruct (slice_is_error_text error) as [rest (Hrest & Hlen & Hle)].
  split; (split; [reflexivity|]);
    eexists; exists (PyStr.slice_to 100 error), rest;
    (split; [reflexivity|]); simpl; auto.
Qed.

(** ** [UniversityComplianceTracker._get_compliance_status] *)

(** C6: every score falls in exactly one of five bands, each closed at its
    lower bound, and the status is the label of that band; 90 is
    "COMPLIANT - Good" and 89 is "PARTIALLY COMPLIANT - Needs
    Improvement". *)
Theorem compliance_status_bands (score : Z) :
  let status := UniversityComplianceTracker._get_compliance_status in
  (95 <= score /\ status score = "COMPLIANT - Excellent"
   \/ 90 <= score < 95 /\ status score = "COMPLIANT - Good"
   \/ 80 <= score < 90
      /\ status score = "PARTIALLY COMPLIANT - Needs Improvement"
   \/ 70 <= score < 80 /\ status score = "NON-COMPLIANT - Significant Issues"
   \/ score < 70
      /\ status score = "NON-COMPLIANT - Critical Remediation Required")
  /\ status 90 = "COMPLIANT - Good"
  /\ status 89 = "PARTIALLY COMPLIANT - Needs Improvement".
Proof.
  cbv zeta. split; [|split; reflexivity].
  unfold UniversityComplianceTracker._get_compliance_status.
  destruct (95 <=? score) eqn:H95; [left; split; [lia|reflexivity]|].
  destruct (90 <=? score) eqn:H90; [right; left; split; [lia|reflexivity]|].
  destruct (80 <=? score) eqn:H80;
    [right; right; left; split; [lia|reflexivity]|].
  destruct (70 <=? score) eqn:H70;
    [right; right; right; left; split; [lia|reflexivity]|].
  right; right; right; right; split; [lia|reflexivity].
Qed.

(** ** The impact of a violation *)

(** A violation whose impact is the text "unknown", none of the four known
    values, is not treated as moderate: it costs 4 and weighs 0.2. *)
Lemma unknown_impact_not_moderate :
  let v := {| r_id := Some "image-alt"; r_impact := Some "unknown";
              r_description := None; r_help := None; r_helpUrl := None;
              r_tags := None; r_nodes := Some ["n1"] |} in
  ~ In "unknown" known_impacts
  /\ treated_as_minor v
  /\ ~ treated_as_moderate v.
Proof.
  cbv zeta. split; [|split].
  - simpl. intros [H|[H|[H|[H|[]]]]]; discriminate H.
  - split; reflexivity.
  - intros [H _]. vm_compute in H. discriminate H.
Qed.

(** C7 (amended): a violation without an impact is treated as moderate
    (7 and 0.4); a violation whose impact, in lower case, is none of
    "critical", "serious" and "moderate" takes the last branch and is
    treated as minor (4 and 0.2). *)
Theorem impact_default_and_fallthrough (missing other : axe_rule) (impact : string) :
  r_impact missing = None ->
  r_impact other = Some impact ->
  PyStr.py_lower impact <> "critical" ->
  PyStr.py_lower impact <> "serious" ->
  PyStr.py_lower impact <> "moderate" ->
  treated_as_moderate missing /\ treated_as_minor other.
Proof.
  intros Hmissing Hother Hc Hs Hm.
  unfold treated_as_moderate, treated_as_minor,
    AccessibilityChecker.violation_impact, AccessibilityScorer.violation_impact,
    AccessibilityChecker.impact_penalty, AccessibilityScorer.impact_weight.
  rewrite Hmissing, Hother; simpl get.
  apply String.eqb_neq in Hc, Hs, Hm.
  rewrite Hc, Hs, Hm.
  repeat split; reflexivity.
Qed.

Lemma impact_default_and_fallthrough_witness :
  let missing := {| r_id := Some "label"; r_impact := None;
                    r_description := None; r_help := None; r_helpUrl := None;
                    r_tags := None; r_nodes := None |} in
  let other := {| r_id := Some "label"; r_impact := Some "Blocker";
                  r_description := None; r_help := None; r_helpUrl := None;
                  r_tags := None; r_nodes := None |} in
  treated_as_moderate missing /\ treated_as_minor other.
Proof.
  intros missing other.
  apply (impact_default_and_fallthrough missing other "Blocker");
    [reflexivity | reflexivity | | | ]; vm_compute; discriminate.
Defined.

(** ** [AccessibilityChecker._get_fix_suggestion] *)

(** The rule "region" is not in the table, and what is returned for it is
    not the text "Review accessibility guidelines and fix accordingly". *)
Lemma fix_suggestion_default_differs :
  AccessibilityChecker.fixes !! "region" = None
  /\ AccessibilityChecker._get_fix_suggestion "region"
     <> "Review accessibility guidelines and fix accordingly".
Proof.
  split; [reflexivity|]. vm_compute. discriminate.
Qed.

(** C9 (amended): the suggestion of a rule of the table is its entry, and
    for every rule that is not in the table it is "Review WCAG guidelines
    and fix accordingly." *)
Theorem fix_suggestion_lookup (known unknown suggestion : string) :
  AccessibilityChecker.fixes !! known = Some suggestion ->
  AccessibilityChecker.fixes !! unknown = None ->
  AccessibilityChecker._get_fix_suggestion known = suggestion
  /\ AccessibilityChecker._get_fix_suggestion unknown
     = "Review WCAG guidelines and fix accordingly.".
Proof.
  intros Hknown Hunknown. unfold AccessibilityChecker._get_fix_suggestion.
  now rewrite Hknown, Hunknown.
Qed.

Lemma fix_suggestion_lookup_witness :
  AccessibilityChecker._get_fix_suggestion "label"
  = "Form inputs should have associated <label> elements."
  /\ AccessibilityChecker._get_fix_suggestion "region"
     = "Review WCAG guidelines and fix accordingly.".
Proof.
  apply (fix_suggestion_lookup "label" "region"); reflexivity.
Defined.

(** ** [AccessibilityChecker._process_axe_results] *)

(** C10: the record of a web scan lists the first 20 of the issues built
    from the violations and then the incomplete items, so never more than
    20, while the score and the two counts are those of all of them. *)
Theorem process_axe_results_limits_issues (url : string) (axe_data : axe_results) :
  let violations := get (ax_violations axe_data) [] in
  let incomplete := get (ax_incomplete axe_data) [] in
  let passes := get (ax_passes axe_data) [] in
  let all_issues :=
    map AccessibilityChecker.violation_issue violations
    ++ map AccessibilityChecker.incomplete_issue incomplete in
  let r := AccessibilityChecker._process_axe_results url axe_data in
  issues r = firstn 20 all_issues
  /\ List.length (issues r)
     = Nat.min 20 (List.length violations + List.length incomplete)
  /\ (List.length (issues r) <= 20)%nat
  /\ score r = AccessibilityChecker._calculate_score violations incomplete passes
  /\ violation_count r = Some (len violations)
  /\ warning_count r = Some (len incomplete).
Proof.
  cbv zeta. unfold AccessibilityChecker._process_axe_results. simpl.
  repeat split.
  - rewrite length_firstn, length_app, !length_map. reflexivity.
  - rewrite length_firstn. apply Nat.le_min_l.
Qed.

(** ** Policy B: [AccessibilityScorer.calculate_score] *)

Section PolicyB.
Import AccessibilityScorer.

Variable rnd : Q -> Q.
Variable powf : Q -> Z -> Q.

(** Rounding is monotone and does not make zero negative; the powers of
    the literal 0.9 do not grow with the exponent.  Binary64 rounding to
    nearest and the C library have these properties, and so has exact
    arithmetic. *)
Hypothesis rnd_monotone : forall x y : Q, (x <= y)%Q -> (rnd x <= rnd y)%Q.
Hypothesis rnd_zero : (0 <= rnd 0)%Q.
Hypothesis pow_antitone :
  forall m n : Z, 0 <= m <= n -> (powf (lit rnd 0.9) n <= powf (lit rnd 0.9) m)%Q.

Local Abbreviation fadd := (fadd rnd).
Local Abbreviation fsub := (fsub rnd).
Local Abbreviation fmul := (fmul rnd).

Lemma rnd_nonneg (x : Q) : (0 <= x)%Q -> (0 <= rnd x)%Q.
Proof. intros H. apply Qle_trans with (rnd 0); auto. Qed.

Lemma fsub_le_l (x y d : Q) : (x <= y)%Q -> (fsub x d <= fsub y d)%Q.
Proof. intros H. apply rnd_monotone. lra. Qed.

Lemma fsub_le_r (x d d' : Q) : (d <= d')%Q -> (fsub x d' <= fsub x d)%Q.
Proof. intros H. apply rnd_monotone. lra. Qed.

Lemma fadd_le_l (x y d : Q) : (x <= y)%Q -> (fadd x d <= fadd y d)%Q.
Proof. intros H. apply rnd_monotone. lra. Qed.

Lemma fadd_le_r (a x y : Q) : (x <= y)%Q -> (fadd a x <= fadd a y)%Q.
Proof. intros H. apply rnd_monotone. lra. Qed.

Lemma fmul_le_r (a x y : Q) :
  (0 <= a)%Q -> (x <= y)%Q -> (fmul a x <= fmul a y)%Q.
Proof. intros Ha H. apply rnd_monotone. nra. Qed.

Lemma fmul_nonneg (a b : Q) : (0 <= a)%Q -> (0 <= b)%Q -> (0 <= fmul a b)%Q.
Proof. intros Ha Hb. apply rnd_nonneg. nra. Qed.

Lemma fmin_le_r (a x y : Q) : (x <= y)%Q -> (fmin a x <= fmin a y)%Q.
Proof.
  intros H. unfold fmin.
  destruct (Qlt_le_dec x a), (Qlt_le_dec y a); lra.
Qed.

Lemma node_factor_monotone (m n : Z) :
  0 <= m <= n -> (node_factor rnd powf m <= node_factor rnd powf n)%Q.
Proof.
  intros H. unfold node_factor.
  apply fmin_le_r, fadd_le_r, fmul_le_r.
  - apply rnd_nonneg. lra.
  - apply fsub_le_r, pow_antitone, H.
Qed.

Lemma impact_weight_nonneg (impact : string) : (0 <= impact_weight impact)%Q.
Proof.
  unfold impact_weight.
  repeat match goal with
         | |- context [if ?b then _ else _] => destruct b
         end; lra.
Qed.

(** More nodes, larger deduction. *)
Lemma deduction_monotone (v : axe_rule) (nodes : list node) :
  (List.length (get (r_nodes v) []) <= List.length nodes)%nat ->
  (deduction rnd powf v <= deduction rnd powf (with_nodes v nodes))%Q.
Proof.
  intros H. unfold deduction, violation_impact. simpl.
  apply fmul_le_r.
  - apply fmul_nonneg; [lra|]. apply rnd_nonneg, impact_weight_nonneg.
  - apply node_factor_monotone. unfold len. lia.
Qed.

(** Both loops are monotone in the score they start from. *)
Lemma loop_monotone (f : axe_rule -> Q) (l : list axe_rule) (x y : Q) :
  (x <= y)%Q ->
  (fold_left (fun base_score item => fsub base_score (f item)) l x
   <= fold_left (fun base_score item => fsub base_score (f item)) l y)%Q.
Proof.
  revert x y; induction l as [|a l IH]; intros x y H; simpl.
  - exact H.
  - apply IH, fsub_le_l, H.
Qed.

Lemma int_of_float_monotone (x y : Q) :
  (x <= y)%Q -> int_of_float x <= int_of_float y.
Proof.
  intros H. unfold int_of_float.
  destruct (Qlt_le_dec x 0) as [Hx|Hx], (Qlt_le_dec y 0) as [Hy|Hy].
  - now apply Qceiling_resp_le.
  - apply Z.le_trans with 0.
    + change 0 with (Qceiling 0). apply Qceiling_resp_le. lra.
    + change 0 with (Qfloor 0). now apply Qfloor_resp_le.
  - lra.
  - now apply Qfloor_resp_le.
Qed.

(** C2: of two inputs that differ only in one violation having strictly
    more affected nodes, the one with more nodes does not score higher. *)
Theorem policy_b_more_nodes_not_higher
    (before after : list axe_rule) (v : axe_rule) (nodes : list node)
    (incomplete passes : option (list axe_rule)) :
  (List.length (get (r_nodes v) []) < List.length nodes)%nat ->
  calculate_score rnd powf
    {| ax_violations := Some (before ++ with_nodes v nodes :: after);
       ax_incomplete := incomplete; ax_passes := passes |}
  <= calculate_score rnd powf
       {| ax_violations := Some (before ++ v :: after);
          ax_incomplete := incomplete; ax_passes := passes |}.
Proof.
  intros Hnodes. unfold calculate_score. simpl get.
  replace (len (before ++ with_nodes v nodes :: after))
    with (len (before ++ v :: after))
    by (unfold len; now rewrite !length_app).
  destruct (_ =? 0); [lia|].
  apply Z.max_le_compat_l, Z.min_le_compat_l, int_of_float_monotone.
  apply fadd_le_l, loop_monotone.
  rewrite !fold_left_app. simpl.
  apply loop_monotone, fsub_le_r, deduction_monotone. lia.
Qed.

End PolicyB.

(** Exact arithmetic has the three properties. *)
Lemma exact_pow_le_one (q : Q) (k : Z) :
  (0 < q)%Q -> (q <= 1)%Q -> 0 <= k -> (AccessibilityScorer.exact_pow q k <= 1)%Q.
Proof.
  intros Hq Hq1 Hk. unfold AccessibilityScorer.exact_pow.
  pattern k. apply natlike_ind; [ | | exact Hk].
  - simpl. lra.
  - intros x Hx IH. unfold Z.succ.
    rewrite Qpower_plus by lra.
    assert (0 < q ^ x)%Q by now apply Qpower_0_lt.
    rewrite Qpower_1_r. nra.
Qed.

Lemma exact_pow_antitone (q : Q) (m n : Z) :
  (0 < q)%Q -> (q <= 1)%Q -> 0 <= m <= n ->
  (AccessibilityScorer.exact_pow q n <= AccessibilityScorer.exact_pow q m)%Q.
Proof.
  intros Hq Hq1 [Hm Hmn].
  assert (Hk : (AccessibilityScorer.exact_pow q (n - m) <= 1)%Q)
    by (apply exact_pow_le_one; auto; lia).
  unfold AccessibilityScorer.exact_pow in *.
  replace n with (m + (n - m)) by lia.
  rewrite Qpower_plus by lra.
  replace (m + (n - m) - m) with (n - m) in Hk by lia.
  assert (0 < q ^ m)%Q by now apply Qpower_0_lt.
  nra.
Qed.

Lemma policy_b_more_nodes_not_higher_witness :
  let v := {| r_id := Some "image-alt"; r_impact := Some "critical";
              r_description := None; r_help := None; r_helpUrl := None;
              r_tags := None; r_nodes := Some ["n1"] |} in
  let score_of violations :=
    AccessibilityScorer.calculate_score
      AccessibilityScorer.exact_rnd AccessibilityScorer.exact_pow
      {| ax_violations := Some violations; ax_incomplete := None;
         ax_passes := Some [v] |} in
  (List.length (get (r_nodes v) []) < List.length ["n1"; "n2"])%nat
  /\ score_of ([] ++ with_nodes v ["n1"; "n2"] :: []) <= score_of ([] ++ v :: []).
Proof.
  intros v score_of. split; [simpl; lia|].
  apply (policy_b_more_nodes_not_higher
           AccessibilityScorer.exact_rnd AccessibilityScorer.exact_pow).
  - intros x y H. exact H.
  - unfold AccessibilityScorer.exact_rnd. apply Qle_refl.
  - intros m n H. apply exact_pow_antitone; [reflexivity | discriminate | exact H].
  - simpl. lia.
Defined.

Example policy_b_exact_scores :
  let v := {| r_id := Some "image-alt"; r_impact := Some "critical";
              r_description := None; r_help := None; r_helpUrl := None;
              r_tags := None; r_nodes := Some ["n1"] |} in
  let score_of violations :=
    AccessibilityScorer.calculate_score
      AccessibilityScorer.exact_rnd AccessibilityScorer.exact_pow
      {| ax_violations := Some violations; ax_incomplete := None;
         ax_passes := Some [v] |} in
  score_of [v] = 98 /\ score_of [with_nodes v ["n1"; "n2"]] = 97.
Proof. split; vm_compute; reflexivity. Qed.

(** ** The two files of [UniversityComplianceTracker.generate_report] *)

Section Reports.
Import Datetime UniversityComplianceTracker.

Lemma issue_rows_due_dates (issues : list issue) (w : world) :
  map (fun row => List.last row "") (fst (issue_rows issues w))
  = due_dates_by_clock (clock w) (reads w) issues
  /\ files (snd (issue_rows issues w)) = files w
  /\ clock (snd (issue_rows issues w)) = clock w.
Proof.
  revert w; induction issues as [|i rest IH]; intros w.
  - repeat split.
  - simpl. unfold bind, issue_row, due_date_of, urgency_of.
    destruct (i_type i) as [t|]; simpl get.
    + destruct (String.eqb t "critical") eqn:Hc.
      * simpl. destruct (issue_rows rest w) as [rows w'] eqn:Hrest.
        specialize (IH w). rewrite Hrest in IH. simpl in *.
        destruct IH as (IH1 & IH2 & IH3). rewrite IH1. auto.
      * destruct (String.eqb t "warning") eqn:Hw; simpl;
          match goal with
          | |- context [issue_rows rest ?w1] =>
              destruct (issue_rows rest w1) as [rows w'] eqn:Hrest;
              specialize (IH w1); rewrite Hrest in IH; simpl in *;
              destruct IH as (IH1 & IH2 & IH3); rewrite IH1; auto
          end.
    + simpl.
      match goal with
      | |- context [issue_rows rest ?w1] =>
          destruct (issue_rows rest w1) as [rows w'] eqn:Hrest;
          specialize (IH w1); rewrite Hrest in IH; simpl in *;
          destruct IH as (IH1 & IH2 & IH3); rewrite IH1; auto
      end.
Qed.

Lemma append_cancel_l (p a b : string) : p +:+ a = p +:+ b -> a = b.
Proof.
  induction p as [|c p IH]; simpl; intros H; [exact H|].
  injection H as H. auto.
Qed.

Lemma json_name_not_csv_name (output_dir stamp : string) :
  csv_name output_dir stamp <> json_name output_dir stamp.
Proof.
  unfold csv_name, json_name. intros H.
  apply append_cancel_l in H.
  change ("/compliance_" +:+ stamp +:+ ".csv")
    with ("/compliance_" +:+ (stamp +:+ ".csv")) in H.
  change ("/compliance_" +:+ stamp +:+ ".json")
    with ("/compliance_" +:+ (stamp +:+ ".json")) in H.
  apply append_cancel_l, append_cancel_l in H. discriminate H.
Qed.

(** With the clock passing midnight between the reading that stamps the
    report and the one that dates the row, the sheet gives 2024-03-02
    where thirty days from the generation time is 2024-03-01. *)
Lemma due_dates_not_from_generation_time :
  ~ due_dates_share_generation_time
      "compliance_reports" "https://example.edu" one_warning "Library"
      midnight_world.
Proof.
  unfold due_dates_share_generation_time.
  intros (r & rows & Hjson & Hcsv & Hdates).
  vm_compute in Hjson. injection Hjson as <-.
  vm_compute in Hcsv. injection Hcsv as <-.
  vm_compute in Hdates. discriminate Hdates.
Qed.

(** C8 (amended): the report written to the structured file and the rows
    written to the sheet agree on the score and on the compliance status,
    which is that of the score.  Due dates are in the sheet only:
    "IMMEDIATE" for a critical finding, thirty days for a warning or a
    finding without type, sixty days for any other, each counted from a
    reading of the clock of its own, made when its row is written, after
    the three readings for the timestamp, the next audit date and the
    head of the sheet. *)
Theorem report_outputs_agree
    (output_dir url : string) (results : results) (department : string)
    (w : world) :
  let generated := clock w (reads w) in
  let stamp := strftime_stamp generated in
  let run := generate_report output_dir url results department w in
  fst run = json_name output_dir stamp
  /\ exists r rows,
       json_report (snd run) (json_name output_dir stamp) = Some r
       /\ csv_rows (snd run) (csv_name output_dir stamp) = Some rows
       /\ rep_score r = get (res_score results) 0
       /\ csv_cell rows "Score"
          = Some (PyStr.str_of_int (rep_score r) +:+ "/100")
       /\ compliance_status r = _get_compliance_status (rep_score r)
       /\ csv_cell rows "Compliance Status" = Some (compliance_status r)
       /\ detailed_issues r = get (res_issues results) []
       /\ csv_due_dates rows
          = due_dates_by_clock (clock w) (3 + reads w) (detailed_issues r).
Proof.
  cbv zeta.
  unfold generate_report, _generate_csv_report, _get_next_audit_date,
    bind, ret, now, write_file.
  cbn [clock reads files detailed_issues].
  match goal with
  | |- context [issue_rows ?l ?w1] =>
      pose proof (issue_rows_due_dates l w1) as (Hdates & Hfiles & Hclock);
      destruct (issue_rows l w1) as [rows w'] eqn:Hrows
  end.
  cbn [fst snd clock reads files] in *.
  split; [reflexivity|].
  eexists. eexists.
  split; [|split].
  - unfold json_report. cbn [files].
    rewrite lookup_insert_ne by apply json_name_not_csv_name.
    rewrite Hfiles. cbn [files].
    unfold json_name. rewrite lookup_insert_eq. reflexivity.
  - unfold csv_rows. cbn [files].
    unfold csv_name. rewrite lookup_insert_eq. reflexivity.
  - cbn [rep_score compliance_status detailed_issues].
    repeat split.
    unfold csv_due_dates.
    change (skipn 15 (?h ++ rows)) with rows.
    exact Hdates.
Qed.

End Reports.

(** ** Examples *)

Example title_of_rule_id :
  PyStr.py_title (PyStr.py_replace "-" " " "color-contrast") = "Color Contrast".
Proof. reflexivity. Qed.

Example slice_counts_code_points :
  PyStr.slice_to 3 "né à Pau" = "né " /\ PyStr.py_len "né à Pau" = 8%nat.
Proof. split; reflexivity. Qed.

(** Fifteen violations and ten incomplete items: twenty issues are listed,
    the counts are 15 and 10, and the score is at the floor. *)
Example twenty_five_findings :
  let rule := {| r_id := Some "label"; r_impact := Some "serious";
                 r_description := None; r_help := None; r_helpUrl := None;
                 r_tags := Some ["cat.forms"]; r_nodes := Some ["n1"] |} in
  let r := AccessibilityChecker._process_axe_results "https://example.edu"
             {| ax_violations := Some (repeat rule 15);
                ax_incomplete := Some (repeat rule 10);
                ax_passes := None |} in
  List.length (issues r) = 20%nat
  /\ violation_count r = Some 15
  /\ warning_count r = Some 10
  /\ score r = 60.
Proof. repeat split; vm_compute; reflexivity. Qed.

Example date_formats :
  Datetime.strftime_stamp {| Datetime.ordinal := 738945; Datetime.second_of_day := 3661 |}
  = "20240229_010101"
  /\ Datetime.strftime_date
       (Datetime.add_days {| Datetime.ordinal := 738945; Datetime.second_of_day := 0 |} 30)
     = "2024-03-30".
Proof. split; reflexivity. Qed.

(* ===================================================================== *)
(** * Further properties of the scoring policies *)
(* ===================================================================== *)

Lemma sum_app (l l' : list Z) :
  fold_right Z.add 0 (l ++ l') = fold_right Z.add 0 l + fold_right Z.add 0 l'.
Proof. induction l as [|a l IH]; simpl; lia. Qed.

(* Case analysis on the comparisons of the goal, innermost first. *)
Ltac case_ltb :=
  repeat match goal with
         | |- context [?a <? ?b] =>
             lazymatch constr:((a, b)) with
             | context [if _ then _ else _] => fail
             | _ => destruct (Z.ltb_spec a b); cbv iota
             end
         end.

Section PolicyAFurther.
Import AccessibilityChecker.

Lemma penalty_bounds (impact : string) : 4 <= impact_penalty impact <= 15.
Proof.
  unfold impact_penalty.
  repeat match goal with
         | |- context [if ?b then _ else _] => destruct b
         end; lia.
Qed.

Lemma penalties_at_least (violations : list axe_rule) :
  4 * len violations
  <= fold_right Z.add 0
       (map (fun v => impact_penalty (violation_impact v)) violations).
Proof.
  unfold len. induction violations as [|v vs IH]; simpl List.length; simpl.
  - lia.
  - pose proof (penalty_bounds (violation_impact v)). lia.
Qed.

Lemma penalties_permutation (l l' : list axe_rule) :
  Permutation l l' ->
  fold_right Z.add 0 (map (fun v => impact_penalty (violation_impact v)) l)
  = fold_right Z.add 0 (map (fun v => impact_penalty (violation_impact v)) l').
Proof.
  induction 1; simpl; lia.
Qed.

(** X1: Policy A does not depend on the order of the violations. *)
Theorem policy_a_order_independent
    (violations violations' incomplete passes : list axe_rule) :
  Permutation violations violations' ->
  _calculate_score violations incomplete passes
  = _calculate_score violations' incomplete passes.
Proof.
  intros Hperm. unfold _calculate_score.
  rewrite !deduction_loop, (penalties_permutation _ _ Hperm).
  unfold len. now rewrite (Permutation_length Hperm).
Qed.

Lemma policy_a_order_independent_witness :
  let rule impact :=
    {| r_id := Some "label"; r_impact := Some impact; r_description := None;
       r_help := None; r_helpUrl := None; r_tags := None; r_nodes := None |} in
  _calculate_score [rule "minor"; rule "critical"; rule "serious"] [] [rule "minor"]
  = _calculate_score [rule "serious"; rule "minor"; rule "critical"] [] [rule "minor"].
Proof.
  intros rule. apply policy_a_order_independent.
  apply perm_trans with [rule "minor"; rule "serious"; rule "critical"].
  - apply perm_skip, perm_swap.
  - apply perm_swap.
Defined.

(** X2: Policy A: a violation of a costlier impact in the place of another
    never raises the score. *)
Theorem policy_a_costlier_violation_not_higher
    (before after incomplete passes : list axe_rule) (v v' : axe_rule) :
  impact_penalty (violation_impact v) <= impact_penalty (violation_impact v') ->
  _calculate_score (before ++ v' :: after) incomplete passes
  <= _calculate_score (before ++ v :: after) incomplete passes.
Proof.
  intros Hcost. unfold _calculate_score.
  replace (len (before ++ v' :: after)) with (len (before ++ v :: after))
    by (unfold len; now rewrite !length_app).
  destruct (_ =? 0); [lia|].
  rewrite !deduction_loop, !map_app, !sum_app. simpl.
  destruct (0.95 <? _)%float; lia.
Qed.

Lemma policy_a_costlier_violation_not_higher_witness :
  let rule impact :=
    {| r_id := Some "label"; r_impact := Some impact; r_description := None;
       r_help := None; r_helpUrl := None; r_tags := None; r_nodes := None |} in
  _calculate_score ([rule "minor"] ++ rule "critical" :: []) [] []
  <= _calculate_score ([rule "minor"] ++ rule "moderate" :: []) [] [].
Proof.
  intros rule.
  apply (policy_a_costlier_violation_not_higher
           [rule "minor"] [] [] [] (rule "moderate") (rule "critical")).
  vm_compute. discriminate.
Defined.

(** X3: Policy A is at its floor as soon as there are twelve violations or
    fifteen incomplete items: the score is then 60 whatever the impacts
    and the passes. *)
Theorem policy_a_saturates (violations incomplete passes : list axe_rule) :
  12 <= len violations \/ 15 <= len incomplete ->
  _calculate_score violations incomplete passes = 60.
Proof.
  intros Hmany. unfold _calculate_score.
  assert (0 <= len violations /\ 0 <= len incomplete /\ 0 <= len passes)
    as (Hv & Hi & Hp) by (unfold len; lia).
  destruct (_ =? 0) eqn:Htotal; [apply Z.eqb_eq in Htotal; lia|].
  rewrite deduction_loop.
  pose proof (penalties_at_least violations).
  destruct (0.95 <? _)%float; lia.
Qed.

Lemma policy_a_saturates_witness :
  let rule :=
    {| r_id := Some "label"; r_impact := Some "minor"; r_description := None;
       r_help := None; r_helpUrl := None; r_tags := None; r_nodes := None |} in
  _calculate_score (repeat rule 12) [] (repeat rule 500) = 60.
Proof.
  intros rule. apply policy_a_saturates. left. vm_compute. discriminate.
Defined.

End PolicyAFurther.

Section PolicyCFurther.
Import PDFAccessibilityChecker.

Lemma issue_penalty_nonneg (i : issue) : 0 <= issue_penalty i.
Proof.
  unfold issue_penalty.
  destruct (type_is i "critical"); [lia|]. destruct (type_is i "warning"); lia.
Qed.

Lemma issue_penalties_permutation (l l' : list issue) :
  Permutation l l' ->
  fold_right Z.add 0 (map issue_penalty l)
  = fold_right Z.add 0 (map issue_penalty l').
Proof.
  induction 1; simpl; lia.
Qed.

(** X4: Policy C does not depend on the order of the findings. *)
Theorem policy_c_order_independent (issues issues' : list issue) (element_count : Z) :
  Permutation issues issues' ->
  _calculate_score issues element_count = _calculate_score issues' element_count.
Proof.
  intros Hperm. unfold _calculate_score.
  now rewrite !issue_loop, (issue_penalties_permutation _ _ Hperm).
Qed.

Lemma policy_c_order_independent_witness :
  let finding t :=
    {| i_type := Some t; i_title := None; i_count := Some 1;
       i_description := None; i_help := None; i_helpUrl := None;
       i_impact := None; i_fix := None; i_category := None; i_nodes := None;
       i_tags := None |} in
  _calculate_score [finding "info"; finding "critical"] 12
  = _calculate_score [finding "critical"; finding "info"] 12.
Proof.
  intros finding. apply policy_c_order_independent, perm_swap.
Defined.

(** X5: Policy C: one more finding never raises the score, and one more
    counted element never lowers it. *)
Theorem policy_c_monotone
    (before after : list issue) (i : issue) (element_count more : Z) :
  0 <= more ->
  _calculate_score (before ++ i :: after) element_count
  <= _calculate_score (before ++ after) element_count
  /\ _calculate_score (before ++ after) element_count
     <= _calculate_score (before ++ after) (element_count + more).
Proof.
  intros Hmore. unfold _calculate_score.
  rewrite !issue_loop, !map_app, !sum_app. cbn [map fold_right].
  pose proof (issue_penalty_nonneg i).
  split; case_ltb; lia.
Qed.

Lemma policy_c_monotone_witness :
  let finding t :=
    {| i_type := Some t; i_title := None; i_count := Some 1;
       i_description := None; i_help := None; i_helpUrl := None;
       i_impact := None; i_fix := None; i_category := None; i_nodes := None;
       i_tags := None |} in
  _calculate_score ([finding "warning"] ++ finding "critical" :: []) 10
  <= _calculate_score ([finding "warning"] ++ []) 10
  /\ _calculate_score ([finding "warning"] ++ []) 10
     <= _calculate_score ([finding "warning"] ++ []) (10 + 1).
Proof.
  intros finding.
  apply (policy_c_monotone [finding "warning"] [] (finding "critical") 10 1). lia.
Defined.

End PolicyCFurther.

(** X6: A scan without violations and incomplete items scores 100 under
    Policy A whatever the passes, and a document whose findings are
    neither critical nor warnings scores 100 under Policy C whatever the
    element count. *)
Theorem clean_input_scores_100
    (passes : list axe_rule) (issues : list issue) (element_count : Z) :
  Forall (fun i => issue_penalty i = 0) issues ->
  AccessibilityChecker._calculate_score [] [] passes = 100
  /\ PDFAccessibilityChecker._calculate_score issues element_count = 100.
Proof.
  intros Hclean. split.
  - unfold AccessibilityChecker._calculate_score. simpl.
    destruct (_ =? 0); [reflexivity|].
    destruct (0.95 <? _)%float; reflexivity.
  - unfold PDFAccessibilityChecker._calculate_score. rewrite issue_loop.
    assert (Hzero : fold_right Z.add 0 (map issue_penalty issues) = 0).
    { induction Hclean as [|i l Hi _ IH]; simpl; lia. }
    rewrite Hzero.
    destruct (10 <? element_count); reflexivity.
Qed.

Lemma clean_input_scores_100_witness :
  let info :=
    {| i_type := Some "info"; i_title := Some "Missing Author";
       i_count := Some 1; i_description := None; i_help := None;
       i_helpUrl := None; i_impact := None; i_fix := None;
       i_category := Some "Metadata"; i_nodes := None; i_tags := None |} in
  AccessibilityChecker._calculate_score [] []
    [ {| r_id := None; r_impact := None; r_description := None; r_help := None;
         r_helpUrl := None; r_tags := None; r_nodes := None |} ] = 100
  /\ PDFAccessibilityChecker._calculate_score [info; info] 3 = 100.
Proof.
  intros info. apply clean_input_scores_100.
  repeat constructor.
Defined.

(* ===================================================================== *)
(** * Further properties of the web checker *)
(* ===================================================================== *)

Section WebFurther.
Import AccessibilityChecker.

Lemma policy_a_floor_and_ceiling (violations incomplete passes : list axe_rule) :
  60 <= _calculate_score violations incomplete passes <= 100.
Proof.
  unfold _calculate_score. destruct (_ =? 0); lia.
Qed.

Lemma contains_In (tags : list string) (tag : string) :
  contains tags tag = true <-> In tag tags.
Proof.
  unfold contains. rewrite existsb_exists. split.
  - intros (t & Hin & Heq). apply String.eqb_eq in Heq. now subst.
  - intros Hin. exists tag. split; [exact Hin | apply String.eqb_refl].
Qed.

Lemma contains_same_members (tags tags' : list string) (tag : string) :
  (forall t, In t tags <-> In t tags') -> contains tags tag = contains tags' tag.
Proof.
  intros Hsame. apply eq_true_iff_eq. rewrite !contains_In. apply Hsame.
Qed.

(** X7: The category depends on which tags are present only, not on their
    order or number, and it is one of six names. *)
Theorem category_depends_on_members (tags tags' : list string) :
  (forall t, In t tags <-> In t tags') ->
  _get_category tags = _get_category tags'
  /\ In (_get_category tags)
        ["Color"; "Forms"; "Images"; "Language"; "Structure"; "General"].
Proof.
  intros Hsame. split.
  - unfold _get_category.
    now rewrite !(contains_same_members tags tags' _ Hsame).
  - unfold _get_category.
    repeat match goal with
           | |- context [if ?b then _ else _] => destruct b
           end; simpl; auto 10.
Qed.

Lemma category_depends_on_members_witness :
  _get_category ["wcag2aa"; "cat.forms"; "cat.color"]
  = _get_category ["cat.color"; "cat.forms"; "cat.color"; "wcag2aa"]
  /\ In (_get_category ["wcag2aa"; "cat.forms"; "cat.color"])
        ["Color"; "Forms"; "Images"; "Language"; "Structure"; "General"].
Proof.
  apply category_depends_on_members.
  intros t. simpl. tauto.
Defined.

(** X8: The category is "General" exactly when none of the five category tags
    is present. *)
Theorem category_general_iff (tags : list string) :
  _get_category tags = "General"
  <-> Forall (fun tag => ~ In tag tags)
        ["cat.color"; "cat.forms"; "cat.images"; "cat.language"; "cat.structure"].
Proof.
  unfold _get_category. split.
  - intros H.
    repeat match type of H with
           | context [if contains tags ?t then _ else _] =>
               let E := fresh "E" in
               destruct (contains tags t) eqn:E; [discriminate H|]
           end.
    repeat constructor; rewrite <- contains_In; congruence.
  - intros H.
    repeat match goal with
           | H : Forall _ (_ :: _) |- _ =>
               let Hd := fresh "Hd" in
               apply Forall_cons_iff in H as [Hd H];
               rewrite <- contains_In in Hd;
               apply not_true_is_false in Hd
           end.
    now repeat match goal with
               | E : contains tags _ = false |- _ => rewrite E; clear E
               end.
Qed.

Lemma Forall_firstn {A : Type} (P : A -> Prop) (n : nat) (l : list A) :
  Forall P l -> Forall P (firstn n l).
Proof.
  intros H. revert n. induction H as [|a l Ha _ IH]; intros [|n]; simpl;
    constructor; auto.
Qed.

(** X9: Every issue listed by a web scan has the type "critical" (it comes
    from a violation, whatever its impact) or "warning" (from an incomplete
    item), at most two nodes and no tags; the issue of a violation counts
    all its nodes. *)
Theorem web_issues_shape (url : string) (axe_data : axe_results) (v : axe_rule) :
  Forall web_issue_shape (issues (_process_axe_results url axe_data))
  /\ i_type (violation_issue v) = Some "critical"
  /\ i_count (violation_issue v) = Some (len (get (r_nodes v) [])).
Proof.
  split; [|split; reflexivity].
  unfold _process_axe_results; simpl issues.
  apply Forall_firstn, Forall_app. split; apply Forall_map, Forall_forall;
    intros r _; unfold web_issue_shape; simpl.
  - split; [now left|]. split; [|reflexivity].
    rewrite length_firstn. apply Nat.le_min_l.
  - split; [now right|]. split; [lia | reflexivity].
Qed.

(** X10: A web scan is never summarised as "Poor": the score is at least 60,
    so the summary starts with "Excellent", "Good" or "Needs Work". *)
Theorem web_summary_never_poor (url : string) (axe_data : axe_results) :
  let r := _process_axe_results url axe_data in
  exists label,
    In label web_summary_labels
    /\ summary r
       = label +:+ " - Score: " +:+ PyStr.str_of_int (score r) +:+ "/100. "
           +:+ PyStr.str_of_int (len (get (ax_violations axe_data) []))
           +:+ " violations, "
           +:+ PyStr.str_of_int (len (get (ax_incomplete axe_data) []))
           +:+ " warnings.".
Proof.
  cbv zeta. unfold _process_axe_results. cbn [summary score].
  set (s := _calculate_score _ _ _).
  assert (Hs : 60 <= s <= 100) by apply policy_a_floor_and_ceiling.
  unfold _generate_summary, web_summary_labels.
  destruct (Z.leb_spec 90 s).
  - exists "✅ Excellent". split; [simpl; auto | reflexivity].
  - destruct (Z.leb_spec 70 s).
    + exists "⚠️ Good". split; [simpl; auto | reflexivity].
    + destruct (Z.leb_spec 50 s); [|lia].
      exists "🔧 Needs Work". split; [simpl; auto | reflexivity].
Qed.

End WebFurther.

(* ===================================================================== *)
(** * Further properties of the compliance tracker *)
(* ===================================================================== *)

Section TrackerFurther.
Import Datetime UniversityComplianceTracker.

(** X11: The WCAG level is "WCAG 2.0 A (Minimum)" exactly when some issue is
    both tagged "wcag2aa" and critical, and "WCAG 2.1 AA (Target)"
    otherwise. *)
Theorem wcag_level_characterised (issues : list issue) :
  _determine_wcag_level issues
  = if existsb critical_aa issues then "WCAG 2.0 A (Minimum)"
    else "WCAG 2.1 AA (Target)".
Proof.
  induction issues as [|i l IH]; [reflexivity|].
  cbn [_determine_wcag_level existsb].
  change (existsb (String.eqb "wcag2aa") (get (i_tags i) []) && type_is i "critical")
    with (critical_aa i).
  destruct (critical_aa i); [reflexivity | exact IH].
Qed.

Lemma wcag_level_without_tags (issues : list issue) :
  Forall (fun i => i_tags i = None) issues ->
  _determine_wcag_level issues = "WCAG 2.1 AA (Target)".
Proof.
  induction 1 as [|i l Hi _ IH]; simpl; [reflexivity|].
  now rewrite Hi.
Qed.

(** X12: No checker of the repository puts tags on its issues, so for the
    result of a web scan, however many critical violations tagged
    "wcag2aa" the scan found, and for an error result, the WCAG level is
    always "WCAG 2.1 AA (Target)". *)
Theorem wcag_level_of_checker_results
    (url error : string) (axe_data : axe_results) :
  _determine_wcag_level
    (issues (AccessibilityChecker._process_axe_results url axe_data))
  = "WCAG 2.1 AA (Target)"
  /\ _determine_wcag_level (issues (AccessibilityChecker._error_result url error))
     = "WCAG 2.1 AA (Target)"
  /\ _determine_wcag_level (issues (PDFAccessibilityChecker._error_result url error))
     = "WCAG 2.1 AA (Target)".
Proof.
  split; [|split; reflexivity].
  apply wcag_level_without_tags.
  unfold AccessibilityChecker._process_axe_results; simpl issues.
  apply Forall_firstn, Forall_app.
  split; apply Forall_map, Forall_forall; intros r _; reflexivity.
Qed.

Lemma issue_rows_effect (issues : list issue) (w : world) :
  reads (snd (issue_rows issues w))
  = (reads w + List.length (List.filter dated issues))%nat
  /\ List.length (fst (issue_rows issues w)) = List.length issues
  /\ Forall (fun row => List.length row = 6%nat
                        /\ (PyStr.py_len (nth 2 row "") <= 100)%nat)
            (fst (issue_rows issues w)).
Proof.
  revert w; induction issues as [|i rest IH]; intros w.
  - simpl. split; [lia|]. split; [reflexivity | constructor].
  - simpl. unfold bind, issue_row, due_date_of, dated.
    destruct (String.eqb (get (i_type i) "warning") "critical");
      [|destruct (String.eqb (get (i_type i) "warning") "warning")];
      simpl;
      match goal with
      | |- context [issue_rows rest ?w1] =>
          destruct (issue_rows rest w1) as [rows w'] eqn:Hrest;
          specialize (IH w1); rewrite Hrest in IH; unfold dated in *;
          simpl in *; destruct IH as (IH1 & IH2 & IH3)
      end;
      (split; [lia|]); (split; [lia|]);
      (constructor; [|exact IH3]);
      (split; [reflexivity|]); simpl;
      rewrite py_len_slice_to; apply Nat.le_min_l.
Qed.

(* Runs [generate_report] in the goal and names what the loop over the
   issues returns. *)
Ltac run_report :=
  cbv zeta;
  unfold generate_report, _generate_csv_report, _get_next_audit_date,
    bind, ret, now, write_file;
  cbn [clock reads files detailed_issues];
  match goal with
  | |- context [issue_rows ?l ?w1] =>
      pose proof (issue_rows_due_dates l w1) as (Hdates & Hfiles & Hclock);
      pose proof (issue_rows_effect l w1) as (Hreads & Hlen & Hrows);
      destruct (issue_rows l w1) as [rows w'] eqn:Hrun
  end;
  cbn [fst snd clock reads files] in *.

Ltac read_json :=
  unfold json_report; cbn [files];
  rewrite lookup_insert_ne by apply json_name_not_csv_name;
  match goal with H : files _ = _ |- _ => rewrite H end; cbn [files];
  unfold json_name; rewrite lookup_insert_eq; reflexivity.

Ltac read_csv :=
  unfold csv_rows; cbn [files];
  unfold csv_name; rewrite lookup_insert_eq; reflexivity.

(** X13: [generate_report] writes its two files and nothing else: every other
    file is as before, the clock has been read three times and once more
    for each finding that is not critical. *)
Theorem generate_report_frame
    (output_dir url : string) (results : results) (department : string)
    (w : world) (name : string) :
  let stamp := strftime_stamp (clock w (reads w)) in
  let run := generate_report output_dir url results department w in
  name <> json_name output_dir stamp ->
  name <> csv_name output_dir stamp ->
  files (snd run) !! name = files w !! name
  /\ is_Some (files (snd run) !! json_name output_dir stamp)
  /\ is_Some (files (snd run) !! csv_name output_dir stamp)
  /\ reads (snd run)
     = (reads w + 3
        + List.length (List.filter dated (get (res_issues results) [])))%nat.
Proof.
  run_report. intros Hjson Hcsv.
  split; [|split; [|split]].
  - rewrite lookup_insert_ne by (unfold csv_name in Hcsv; congruence).
    rewrite Hfiles; cbn [files].
    rewrite lookup_insert_ne by (unfold json_name in Hjson; congruence).
    reflexivity.
  - rewrite lookup_insert_ne by apply json_name_not_csv_name.
    rewrite Hfiles; cbn [files].
    unfold json_name. rewrite lookup_insert_eq. eauto.
  - unfold csv_name. rewrite lookup_insert_eq. eauto.
  - rewrite Hreads. lia.
Qed.

Lemma generate_report_frame_witness :
  let run := generate_report "compliance_reports" "https://example.edu"
               one_warning "Library" archive_world in
  files (snd run) !! "compliance_reports/notes.csv" = Some (Csv [["kept"]])
  /\ reads (snd run) = 11%nat.
Proof.
  intros run.
  destruct (generate_report_frame "compliance_reports" "https://example.edu"
              one_warning "Library" archive_world
              "compliance_reports/notes.csv")
    as (Hkept & _ & _ & Hreads);
    [vm_compute; discriminate | vm_compute; discriminate |].
  split; [exact Hkept | exact Hreads].
Defined.

(** X14: The counts of a report: the total is the number of issues, the
    critical ones are among them, and the sheet has its fifteen rows of
    head and one row of six cells for each issue, whose description is cut
    to a hundred characters. *)
Theorem report_counts
    (output_dir url : string) (results : results) (department : string)
    (w : world) :
  let stamp := strftime_stamp (clock w (reads w)) in
  let run := generate_report output_dir url results department w in
  let found := get (res_issues results) [] in
  exists r rows,
    json_report (snd run) (json_name output_dir stamp) = Some r
    /\ csv_rows (snd run) (csv_name output_dir stamp) = Some rows
    /\ detailed_issues r = found
    /\ total_issues r = len found
    /\ 0 <= critical_issues r <= total_issues r
    /\ csv_cell rows "Total Issues" = Some (PyStr.str_of_int (len found))
    /\ List.length rows = (15 + List.length found)%nat
    /\ Forall (fun row => List.length row = 6%nat
                          /\ (PyStr.py_len (nth 2 row "") <= 100)%nat)
              (skipn 15 rows).
Proof.
  run_report. eexists. eexists.
  split; [read_json|]. split; [read_csv|].
  cbn [detailed_issues total_issues critical_issues].
  split; [reflexivity|]. split; [reflexivity|].
  split.
  { unfold len. pose proof (filter_length_le (fun i => type_is i "critical")
                              (get (res_issues results) [])). lia. }
  split; [reflexivity|].
  split.
  { rewrite length_app, Hlen. reflexivity. }
  change (skipn 15 (?h ++ rows)) with rows. exact Hrows.
Qed.

(** X15: A result without a score is reported with the score 0, which is
    "NON-COMPLIANT - Critical Remediation Required", in both files. *)
Theorem report_without_score
    (output_dir url : string) (results : results) (department : string)
    (w : world) :
  res_score results = None ->
  let stamp := strftime_stamp (clock w (reads w)) in
  let run := generate_report output_dir url results department w in
  exists r rows,
    json_report (snd run) (json_name output_dir stamp) = Some r
    /\ csv_rows (snd run) (csv_name output_dir stamp) = Some rows
    /\ rep_score r = 0
    /\ compliance_status r = "NON-COMPLIANT - Critical Remediation Required"
    /\ csv_cell rows "Score" = Some "0/100"
    /\ csv_cell rows "Compliance Status"
       = Some "NON-COMPLIANT - Critical Remediation Required".
Proof.
  intros Hscore. run_report. eexists. eexists.
  split; [read_json|]. split; [read_csv|].
  cbn [rep_score compliance_status]. rewrite Hscore.
  repeat split.
Qed.

Lemma report_without_score_witness :
  let run := generate_report "compliance_reports" "https://example.edu"
               {| res_score := None; res_issues := res_issues one_warning |}
               "Library" archive_world in
  exists r rows,
    json_report (snd run)
      (json_name "compliance_reports" "20240201_000000") = Some r
    /\ csv_rows (snd run)
         (csv_name "compliance_reports" "20240201_000000") = Some rows
    /\ rep_score r = 0
    /\ compliance_status r = "NON-COMPLIANT - Critical Remediation Required"
    /\ csv_cell rows "Score" = Some "0/100"
    /\ csv_cell rows "Compliance Status"
       = Some "NON-COMPLIANT - Critical Remediation Required".
Proof.
  intros run.
  apply (report_without_score "compliance_reports" "https://example.edu"
           {| res_score := None; res_issues := res_issues one_warning |}
           "Library" archive_world).
  reflexivity.
Defined.

Lemma slice_to_idempotent (n : nat) (s : string) :
  PyStr.slice_to n (PyStr.slice_to n s) = PyStr.slice_to n s.
Proof.
  revert n; induction s as [|c s IH]; intros n; simpl; [reflexivity|].
  destruct (PyStr.is_continuation c) eqn:Hc; simpl.
  - now rewrite Hc, IH.
  - destruct n as [|n]; simpl; [reflexivity|]. now rewrite Hc, IH.
Qed.

(** X16: The report of a failed web check: score 0, "NON-COMPLIANT - Critical
    Remediation Required", one issue, which is critical, and one row in
    the sheet, due "IMMEDIATE", whose description is the first hundred
    characters of the failure text; no date is taken from the clock for
    it. *)
Theorem error_result_report
    (output_dir url error department : string) (w : world) :
  let stamp := strftime_stamp (clock w (reads w)) in
  let results := results_of (AccessibilityChecker._error_result url error) in
  let run := generate_report output_dir url results department w in
  exists r rows,
    json_report (snd run) (json_name output_dir stamp) = Some r
    /\ csv_rows (snd run) (csv_name output_dir stamp) = Some rows
    /\ rep_score r = 0
    /\ compliance_status r = "NON-COMPLIANT - Critical Remediation Required"
    /\ critical_issues r = 1
    /\ total_issues r = 1
    /\ skipn 15 rows
       = [ [ "CRITICAL"; "Analysis Failed"; PyStr.slice_to 100 error; "Error";
             "Try again with a different URL"; "IMMEDIATE" ] ]
    /\ reads (snd run) = (reads w + 3)%nat.
Proof.
  cbv zeta.
  unfold generate_report, _generate_csv_report, _get_next_audit_date,
    bind, ret, now, write_file, results_of,
    AccessibilityChecker._error_result.
  cbn -[strftime_stamp strftime_date strftime_datetime PyStr.slice_to
        lookup insert].
  eexists. eexists.
  split.
  { unfold json_report. cbn [files].
    rewrite lookup_insert_ne by apply json_name_not_csv_name.
    unfold json_name. rewrite lookup_insert_eq. reflexivity. }
  split; [read_csv|].
  cbn [rep_score compliance_status critical_issues total_issues].
  rewrite slice_to_idempotent.
  repeat split. lia.
Qed.

End TrackerFurther.

(* ===================================================================== *)
(** * Further properties of Policy B *)
(* ===================================================================== *)

Section PolicyBFurther.
Import AccessibilityScorer.

Variable rnd : Q -> Q.
Variable powf : Q -> Z -> Q.

(** As before rounding is monotone and keeps zero non-negative; moreover
    it leaves a rounded number and the number 100 as they are, and no
    power of the literals 0.9 and 0.95 with a natural exponent exceeds 1 or
    grows with the exponent. *)
Hypothesis rnd_monotone : forall x y : Q, (x <= y)%Q -> (rnd x <= rnd y)%Q.
Hypothesis rnd_zero : (0 <= rnd 0)%Q.
Hypothesis rnd_idempotent : forall x : Q, (rnd (rnd x) == rnd x)%Q.
Hypothesis rnd_100 : (rnd 100 == 100)%Q.
Hypothesis pow_le_one :
  forall n : Z, 0 <= n -> (powf (lit rnd 0.9) n <= 1)%Q.
Hypothesis pow_antitone_95 :
  forall m n : Z, 0 <= m <= n ->
    (powf (lit rnd 0.95) n <= powf (lit rnd 0.95) m)%Q.

Local Abbreviation fadd := (fadd rnd).
Local Abbreviation fsub := (fsub rnd).
Local Abbreviation fmul := (fmul rnd).
Local Abbreviation loop f l x :=
  (fold_left (fun base_score item => fsub base_score (f item)) l x).

(** A number that rounding leaves as it is. *)
Local Abbreviation exact x := (rnd x == x)%Q.

Lemma nonneg_rnd (x : Q) : (0 <= x)%Q -> (0 <= rnd x)%Q.
Proof. intros H. apply Qle_trans with (rnd 0); auto. Qed.

Lemma rnd_compat (x y : Q) : (x == y)%Q -> (rnd x == rnd y)%Q.
Proof.
  intros H. apply Qle_antisym; apply rnd_monotone; rewrite H; apply Qle_refl.
Qed.

Lemma loop_le (f : axe_rule -> Q) (l : list axe_rule) (x y : Q) :
  (x <= y)%Q -> (loop f l x <= loop f l y)%Q.
Proof.
  revert x y; induction l as [|a l IH]; intros x y H; simpl; [exact H|].
  apply IH, rnd_monotone. lra.
Qed.

Lemma loop_exact (f : axe_rule -> Q) (l : list axe_rule) (x : Q) :
  exact x -> exact (loop f l x).
Proof.
  revert x; induction l as [|a l IH]; intros x H; simpl; [exact H|].
  apply IH. unfold AccessibilityScorer.fsub. apply rnd_idempotent.
Qed.

Lemma fsub_nonneg_le (x d : Q) : exact x -> (0 <= d)%Q -> (fsub x d <= x)%Q.
Proof.
  intros Hx Hd. rewrite <- Hx at 2. apply rnd_monotone. lra.
Qed.

Lemma node_factor_nonneg (n : Z) : 0 <= n -> (0 <= node_factor rnd powf n)%Q.
Proof.
  intros Hn. unfold node_factor, fmin.
  assert (0 <= lit rnd 0.2)%Q by (apply nonneg_rnd; lra).
  assert (0 <= lit rnd 0.8)%Q by (apply nonneg_rnd; lra).
  assert (0 <= fsub 1 (powf (lit rnd 0.9) n))%Q.
  { apply nonneg_rnd. pose proof (pow_le_one n Hn). lra. }
  assert (0 <= AccessibilityScorer.fadd rnd (lit rnd 0.2)
                 (fmul (lit rnd 0.8) (fsub 1 (powf (lit rnd 0.9) n))))%Q.
  { apply nonneg_rnd.
    assert (0 <= fmul (lit rnd 0.8) (fsub 1 (powf (lit rnd 0.9) n)))%Q
      by (apply nonneg_rnd; nra).
    lra. }
  destruct (Qlt_le_dec _ 1); lra.
Qed.

Lemma weight_nonneg (impact : string) : (0 <= impact_weight impact)%Q.
Proof.
  unfold impact_weight.
  repeat match goal with
         | |- context [if ?b then _ else _] => destruct b
         end; lra.
Qed.

Lemma deduction_nonneg (v : axe_rule) : (0 <= deduction rnd powf v)%Q.
Proof.
  unfold deduction. apply nonneg_rnd.
  assert (0 <= fmul 10 (lit rnd (impact_weight (violation_impact v))))%Q.
  { apply nonneg_rnd.
    assert (0 <= lit rnd (impact_weight (violation_impact v)))%Q
      by apply nonneg_rnd, weight_nonneg.
    nra. }
  assert (0 <= node_factor rnd powf (len (get (r_nodes v) [])))%Q
    by (apply node_factor_nonneg; unfold len; lia).
  nra.
Qed.

Lemma truncation_le (x y : Q) : (x <= y)%Q -> int_of_float x <= int_of_float y.
Proof.
  intros H. unfold int_of_float.
  destruct (Qlt_le_dec x 0) as [Hx|Hx], (Qlt_le_dec y 0) as [Hy|Hy].
  - now apply Qceiling_resp_le.
  - apply Z.le_trans with 0.
    + change 0 with (Qceiling 0). apply Qceiling_resp_le. lra.
    + change 0 with (Qfloor 0). now apply Qfloor_resp_le.
  - lra.
  - now apply Qfloor_resp_le.
Qed.

Lemma fmin_le (a x y : Q) : (x <= y)%Q -> (fmin a x <= fmin a y)%Q.
Proof.
  intros H. unfold fmin. destruct (Qlt_le_dec x a), (Qlt_le_dec y a); lra.
Qed.

(** X17: Policy B: one more violation never raises the score. *)
Theorem policy_b_more_violations_not_higher
    (before after : list axe_rule) (v : axe_rule)
    (incomplete passes : option (list axe_rule)) :
  calculate_score rnd powf
    {| ax_violations := Some (before ++ v :: after);
       ax_incomplete := incomplete; ax_passes := passes |}
  <= calculate_score rnd powf
       {| ax_violations := Some (before ++ after);
          ax_incomplete := incomplete; ax_passes := passes |}.
Proof.
  unfold calculate_score. simpl get.
  destruct (len (before ++ after) + _ + _ =? 0) eqn:Hempty.
  - destruct (len (before ++ v :: after) + _ + _ =? 0); lia.
  - assert (Hmore : (len (before ++ v :: after) + len (get incomplete [])
                     + len (get passes []) =? 0) = false).
    { apply Z.eqb_neq. unfold len. rewrite length_app. simpl List.length. lia. }
    rewrite Hmore.
    apply Z.max_le_compat_l, Z.min_le_compat_l, truncation_le.
    apply rnd_monotone.
    apply Qplus_le_l, loop_le.
    rewrite !fold_left_app. simpl.
    apply loop_le, fsub_nonneg_le.
    + apply loop_exact, rnd_100.
    + apply deduction_nonneg.
Qed.

(** X18: Policy B: one more pass never lowers the score. *)
Theorem policy_b_more_passes_not_lower
    (violations incomplete : option (list axe_rule))
    (passes : list axe_rule) (p : axe_rule) :
  calculate_score rnd powf
    {| ax_violations := violations; ax_incomplete := incomplete;
       ax_passes := Some passes |}
  <= calculate_score rnd powf
       {| ax_violations := violations; ax_incomplete := incomplete;
          ax_passes := Some (p :: passes) |}.
Proof.
  unfold calculate_score. simpl get.
  set (vs := get violations []). set (inc := get incomplete []).
  assert (Hhalf : (0 <= lit rnd 0.5)%Q) by (apply nonneg_rnd; lra).
  assert (Hstep : (inject_Z (len passes) <= inject_Z (len (p :: passes)))%Q).
  { rewrite <- Zle_Qle. unfold len. simpl List.length. lia. }
  assert (Hbonus :
    (fmin 20 (fmul (inject_Z (len passes)) (lit rnd 0.5))
     <= fmin 20 (fmul (inject_Z (len (p :: passes))) (lit rnd 0.5)))%Q).
  { apply fmin_le, rnd_monotone. nra. }
  assert (Hnew : (len vs + len inc + len (p :: passes) =? 0) = false).
  { apply Z.eqb_neq. unfold len. simpl List.length. lia. }
  rewrite Hnew.
  destruct (len vs + len inc + len passes =? 0) eqn:Hold.
  - apply Z.eqb_eq in Hold.
    assert (vs = [] /\ inc = []) as [-> ->].
    { unfold len in Hold. clearbody vs inc.
      destruct vs, inc; simpl in Hold; solve [auto | lia]. }
    simpl fold_left.
    assert (H100 : (100 <= fadd 100
                      (fmin 20 (fmul (inject_Z (len (p :: passes))) (lit rnd 0.5))))%Q).
    { rewrite <- rnd_100 at 1. apply rnd_monotone.
      assert (0 <= fmin 20 (fmul (inject_Z (len (p :: passes))) (lit rnd 0.5)))%Q.
      { unfold fmin. destruct (Qlt_le_dec _ 20); [|lra].
        apply nonneg_rnd.
        assert (0 <= inject_Z (len (p :: passes)))%Q
          by (change 0%Q with (inject_Z 0); rewrite <- Zle_Qle; unfold len; lia).
        nra. }
      lra. }
    apply truncation_le in H100.
    change (int_of_float 100) with 100 in H100. lia.
  - apply Z.max_le_compat_l, Z.min_le_compat_l, truncation_le.
    apply rnd_monotone. lra.
Qed.

(** X19: Policy B: more nodes on an incomplete item never raise the score. *)
Theorem policy_b_incomplete_nodes_not_higher
    (before after : list axe_rule) (item : axe_rule) (nodes : list node)
    (violations passes : option (list axe_rule)) :
  (List.length (get (r_nodes item) []) <= List.length nodes)%nat ->
  calculate_score rnd powf
    {| ax_violations := violations;
       ax_incomplete := Some (before ++ with_nodes item nodes :: after);
       ax_passes := passes |}
  <= calculate_score rnd powf
       {| ax_violations := violations;
          ax_incomplete := Some (before ++ item :: after);
          ax_passes := passes |}.
Proof.
  intros Hnodes. unfold calculate_score. simpl get.
  replace (len (before ++ with_nodes item nodes :: after))
    with (len (before ++ item :: after))
    by (unfold len; now rewrite !length_app).
  destruct (_ =? 0); [lia|].
  apply Z.max_le_compat_l, Z.min_le_compat_l, truncation_le.
  apply rnd_monotone, Qplus_le_l.
  rewrite !fold_left_app. simpl.
  apply loop_le, rnd_monotone.
  apply Qplus_le_r, Qopp_le_compat.
  unfold incomplete_deduction. simpl.
  apply rnd_monotone.
  apply Qmult_le_l; [reflexivity|].
  apply fmin_le, rnd_monotone.
  assert (Hhalf : (0 <= lit rnd 0.5)%Q) by (apply nonneg_rnd; lra).
  assert (fsub 1 (powf (lit rnd 0.95) (len (get (r_nodes item) [])))
          <= fsub 1 (powf (lit rnd 0.95) (len nodes)))%Q.
  { apply rnd_monotone.
    assert (powf (lit rnd 0.95) (len nodes)
            <= powf (lit rnd 0.95) (len (get (r_nodes item) [])))%Q
      by (apply pow_antitone_95; unfold len; lia).
    lra. }
  nra.
Qed.

End PolicyBFurther.

Lemma policy_b_more_violations_not_higher_witness :
  let rule impact nodes :=
    {| r_id := Some "label"; r_impact := Some impact; r_description := None;
       r_help := None; r_helpUrl := None; r_tags := None;
       r_nodes := Some nodes |} in
  let score_of violations :=
    AccessibilityScorer.calculate_score
      AccessibilityScorer.exact_rnd AccessibilityScorer.exact_pow
      {| ax_violations := Some violations; ax_incomplete := None;
         ax_passes := Some [rule "minor" []] |} in
  score_of ([rule "serious" ["n1"]] ++ rule "critical" ["n1"; "n2"] :: [])
  <= score_of ([rule "serious" ["n1"]] ++ []).
Proof.
  intros rule score_of.
  apply (policy_b_more_violations_not_higher
           AccessibilityScorer.exact_rnd AccessibilityScorer.exact_pow).
  - intros x y H. exact H.
  - apply Qle_refl.
  - intros x. reflexivity.
  - reflexivity.
  - intros n Hn. apply exact_pow_le_one; [reflexivity | discriminate | exact Hn].
Defined.

Lemma policy_b_more_passes_not_lower_witness :
  let rule :=
    {| r_id := Some "label"; r_impact := Some "critical"; r_description := None;
       r_help := None; r_helpUrl := None; r_tags := None;
       r_nodes := Some ["n1"; "n2"; "n3"] |} in
  let score_of passes :=
    AccessibilityScorer.calculate_score
      AccessibilityScorer.exact_rnd AccessibilityScorer.exact_pow
      {| ax_violations := Some [rule; rule]; ax_incomplete := Some [rule];
         ax_passes := Some passes |} in
  score_of [rule] <= score_of [rule; rule].
Proof.
  intros rule score_of.
  apply (policy_b_more_passes_not_lower
           AccessibilityScorer.exact_rnd AccessibilityScorer.exact_pow).
  - intros x y H. exact H.
  - apply Qle_refl.
  - reflexivity.
Defined.

Lemma policy_b_incomplete_nodes_not_higher_witness :
  let item :=
    {| r_id := Some "color-contrast"; r_impact := Some "serious";
       r_description := None; r_help := None; r_helpUrl := None;
       r_tags := None; r_nodes := Some ["n1"] |} in
  let score_of incomplete :=
    AccessibilityScorer.calculate_score
      AccessibilityScorer.exact_rnd AccessibilityScorer.exact_pow
      {| ax_violations := None; ax_incomplete := Some incomplete;
         ax_passes := None |} in
  score_of ([] ++ with_nodes item (repeat "n" 40) :: [])
  <= score_of ([] ++ item :: []).
Proof.
  intros item score_of.
  apply (policy_b_incomplete_nodes_not_higher
           AccessibilityScorer.exact_rnd AccessibilityScorer.exact_pow).
  - intros x y H. exact H.
  - apply Qle_refl.
  - intros m n H. apply exact_pow_antitone; [reflexivity | discriminate | exact H].
  - simpl. lia.
Defined.

Example policy_b_incomplete_scores :
  let item nodes :=
    {| r_id := Some "color-contrast"; r_impact := Some "serious";
       r_description := None; r_help := None; r_helpUrl := None;
       r_tags := None; r_nodes := Some nodes |} in
  let score_of incomplete :=
    AccessibilityScorer.calculate_score
      AccessibilityScorer.exact_rnd AccessibilityScorer.exact_pow
      {| ax_violations := None; ax_incomplete := Some incomplete;
         ax_passes := None |} in
  score_of [item ["n1"]] = 99 /\ score_of [item []] = 100.
Proof. split; vm_compute; reflexivity. Qed.

(* ===================================================================== *)
(** * Properties of the letter grade, of [check_url] and of its caller *)
(* ===================================================================== *)

(** X20: The letter grade and the compliance status go together: "A+" with
    "COMPLIANT - Excellent", "A" with "COMPLIANT - Good", "A-" and "B+"
    with "PARTIALLY COMPLIANT", "B" and "B-" with "NON-COMPLIANT -
    Significant Issues", and "C", "D" and "F" with "NON-COMPLIANT -
    Critical Remediation Required". *)
Theorem grade_matches_status (score : Z) :
  In (fst (AccessibilityScorerGrade.get_grade score),
      UniversityComplianceTracker._get_compliance_status score)
     [ ("A+", "COMPLIANT - Excellent");
       ("A", "COMPLIANT - Good");
       ("A-", "PARTIALLY COMPLIANT - Needs Improvement");
       ("B+", "PARTIALLY COMPLIANT - Needs Improvement");
       ("B", "NON-COMPLIANT - Significant Issues");
       ("B-", "NON-COMPLIANT - Significant Issues");
       ("C", "NON-COMPLIANT - Critical Remediation Required");
       ("D", "NON-COMPLIANT - Critical Remediation Required");
       ("F", "NON-COMPLIANT - Critical Remediation Required") ].
Proof.
  unfold AccessibilityScorerGrade.get_grade,
    UniversityComplianceTracker._get_compliance_status.
  repeat match goal with
         | |- context [?a <=? ?b] => destruct (Z.leb_spec a b)
         end; try lia; simpl; tauto.
Qed.

(** X21: The score of a web scan is never graded "D" or "F". *)
Theorem web_scan_grade (violations incomplete passes : list axe_rule) :
  In (fst (AccessibilityScorerGrade.get_grade
             (AccessibilityChecker._calculate_score violations incomplete passes)))
     ["A+"; "A"; "A-"; "B+"; "B"; "B-"; "C"].
Proof.
  pose proof (policy_a_floor_and_ceiling violations incomplete passes) as H.
  revert H.
  generalize (AccessibilityChecker._calculate_score violations incomplete passes).
  intros s Hs. unfold AccessibilityScorerGrade.get_grade.
  repeat match goal with
         | |- context [?a <=? ?b] => destruct (Z.leb_spec a b)
         end; try lia; simpl; tauto.
Qed.

Section CheckUrlFacts.
Import AccessibilityChecker CheckUrl.

Lemma simple_issues_count (page : html_page) :
  (List.length (simple_issues page) <= 2)%nat
  /\ Forall (fun i => i_type i = Some "critical" /\ i_tags i = None)
            (simple_issues page).
Proof.
  unfold simple_issues.
  destruct (List.filter falsy (img_alts page));
    destruct (match html_lang page with
              | Some lang => falsy lang
              | None => true
              end); simpl; split; try lia; repeat constructor.
Qed.

Lemma scheme_added (url : string) : has_scheme ("https://" +:+ url) = true.
Proof.
  unfold has_scheme. simpl. now destruct url.
Qed.

Lemma normalised_has_scheme (url : string) :
  has_scheme (if negb (has_scheme url) then "https://" +:+ url else url) = true.
Proof.
  destruct (has_scheme url) eqn:H; simpl; [exact H|].
  apply scheme_added.
Qed.

(** X22: What [check_url] returns is of one of three kinds: an error result
    with the score 0, a scan by axe-core with a score from 60 to 100, or a
    simple check with the score 100, 85 or 70, which is 100 less 15 for
    each of its at most two issues.  No score lies strictly between 0 and
    60.  Its URL always starts with a scheme. *)
Theorem check_url_kinds
    (playwright : option (outcome axe_results)) (fetched : fetch)
    (url : string) :
  let r := check_url playwright fetched url in
  has_scheme (subject r) = true
  /\ (method r = "error" /\ score r = 0 /\ List.length (issues r) = 1%nat
      \/ method r = "axe-core" /\ 60 <= score r <= 100
      \/ method r = "simple"
         /\ score r = 100 - 15 * len (issues r)
         /\ In (score r) [100; 85; 70]).
Proof.
  cbv zeta. unfold check_url.
  pose proof (normalised_has_scheme url) as Hscheme.
  set (u := if negb (has_scheme url) then "https://" +:+ url else url) in *.
  assert (Hsimple :
    let r := _check_with_simple u fetched in
    has_scheme (subject r) = true
    /\ (method r = "error" /\ score r = 0 /\ List.length (issues r) = 1%nat
        \/ method r = "axe-core" /\ 60 <= score r <= 100
        \/ method r = "simple"
           /\ score r = 100 - 15 * len (issues r)
           /\ In (score r) [100; 85; 70])).
  { cbv zeta. unfold _check_with_simple.
    destruct fetched as [e|status body]; [split; [exact Hscheme | left; auto]|].
    destruct (status =? 403); [split; [exact Hscheme | left; auto]|].
    destruct (negb (status =? 200)); [split; [exact Hscheme | left; auto]|].
    destruct body as [e|page]; [split; [exact Hscheme | left; auto]|].
    split; [exact Hscheme|]. right. right. cbn [method score issues].
    destruct (simple_issues_count page) as [Hcount _].
    unfold len.
    destruct (simple_issues page) as [|a [|b [|c l]]]; simpl in *;
      try lia; auto 10. }
  destruct playwright as [[e|data]|]; simpl; try exact Hsimple.
  split; [exact Hscheme|]. right. left. split; [reflexivity|].
  apply policy_a_floor_and_ceiling.
Qed.

(** X23: [check_url] treats a URL and the same URL with the scheme it adds
    alike. *)
Theorem check_url_scheme_added
    (playwright : option (outcome axe_results)) (fetched : fetch)
    (url : string) :
  has_scheme url = false ->
  check_url playwright fetched ("https://" +:+ url)
  = check_url playwright fetched url.
Proof.
  intros H. unfold check_url. rewrite H. simpl negb.
  assert (Hadded : has_scheme ("https://" +:+ url) = true).
  { apply scheme_added. }
  rewrite Hadded. reflexivity.
Qed.

Lemma check_url_scheme_added_witness :
  check_url None (Response 200 (Returned {| img_alts := [None; Some "logo"];
                                            html_lang := Some None |}))
    ("https://" +:+ "example.edu")
  = check_url None (Response 200 (Returned {| img_alts := [None; Some "logo"];
                                              html_lang := Some None |}))
      "example.edu".
Proof.
  apply check_url_scheme_added. reflexivity.
Defined.

Lemma check_url_success_nonzero
    (playwright : option (outcome axe_results)) (fetched : fetch)
    (url : string) :
  method (check_url playwright fetched url) <> "error" ->
  score (check_url playwright fetched url) <> 0.
Proof.
  unfold check_url.
  set (u := if negb (has_scheme url) then "https://" +:+ url else url).
  assert (Hsimple : method (_check_with_simple u fetched) <> "error" ->
                    score (_check_with_simple u fetched) <> 0).
  { unfold _check_with_simple.
    destruct fetched as [e|status body]; [simpl; congruence|].
    destruct (status =? 403); [simpl; congruence|].
    destruct (negb (status =? 200)); [simpl; congruence|].
    destruct body as [e|page]; [simpl; congruence|].
    intros _. cbn [score].
    destruct (simple_issues_count page) as [Hcount _]. unfold len. lia. }
  destruct playwright as [[e|data]|]; simpl; try exact Hsimple.
  intros _.
  pose proof (policy_a_floor_and_ceiling
                (get (ax_violations data) []) (get (ax_incomplete data) [])
                (get (ax_passes data) [])).
  lia.
Qed.

(** X24: The caller answers "blocked" when the scan is not done by axe-core
    and the site answers 403, and passes on every result that is not an
    error result as it is. *)
Theorem analyze_url_answers
    (playwright playwright' : option (outcome axe_results))
    (fetched : fetch) (body : outcome html_page) (url : string) :
  (forall data, playwright <> Some (Returned data)) ->
  method (check_url playwright' fetched url) <> "error" ->
  App.analyze_url playwright (Response 403 body) url
  = App.Blocked
      "Website blocked the accessibility scanner. Try a different site or use document upload."
      0 [] "Blocked by website security"
  /\ App.analyze_url playwright' fetched url
     = App.Results (check_url playwright' fetched url).
Proof.
  intros Hnot Hok. split.
  - unfold App.analyze_url, check_url.
    destruct playwright as [[e|data]|]; try (now destruct (Hnot data));
      reflexivity.
  - unfold App.analyze_url.
    apply check_url_success_nonzero in Hok.
    destruct (Z.eqb_spec (score (check_url playwright' fetched url)) 0);
      [contradiction | reflexivity].
Qed.

Lemma analyze_url_answers_witness :
  let page := {| img_alts := [None; Some ""]; html_lang := None |} in
  App.analyze_url (Some (Raised "Timeout 30000ms exceeded"))
    (Response 403 (Raised "unread")) "example.edu"
  = App.Blocked
      "Website blocked the accessibility scanner. Try a different site or use document upload."
      0 [] "Blocked by website security"
  /\ App.analyze_url None (Response 200 (Returned page)) "example.edu"
     = App.Results (check_url None (Response 200 (Returned page)) "example.edu").
Proof.
  intros page.
  apply (analyze_url_answers (Some (Raised "Timeout 30000ms exceeded")) None
           (Response 200 (Returned page)) (Raised "unread") "example.edu").
  - intros data. discriminate.
  - vm_compute. discriminate.
Defined.

Example simple_check_of_a_page :
  let r := check_url None
             (Response 200 (Returned {| img_alts := [None; Some ""; Some "logo"];
                                        html_lang := Some (Some "en") |}))
             "example.edu" in
  subject r = "https://example.edu"
  /\ score r = 85
  /\ map i_count (issues r) = [Some 2]
  /\ summary r = "Simple check found 1 issues".
Proof. repeat split. Qed.

Example forbidden_site :
  summary (check_url None (Response 403 (Raised "unread")) "http://example.edu")
  = "Failed: Website blocked access (403 Forbidden)".
Proof. reflexivity. Qed.

End CheckUrlFacts.

(* ===================================================================== *)
(** * Properties of the analyses of documents *)
(* ===================================================================== *)

Section DocumentFacts.
Import PDFAccessibilityChecker DocumentChecker.

Lemma split_on_nonempty (sep : ascii) (s : string) :
  (1 <= List.length (PyText.split_on sep s))%nat.
Proof.
  induction s as [|c s IH]; simpl; [lia|].
  destruct (Ascii.eqb c sep); simpl; [lia|].
  destruct (PyText.split_on sep s); simpl in *; lia.
Qed.

(** X25: A text file that can be read has at most two issues, both warnings;
    its score is 100, 95 or 90, so its compliance status is never worse
    than "COMPLIANT - Good"; and it has at least one line. *)
Theorem analyze_text_scores (filename content : string) :
  let d := _analyze_text filename (Returned content) in
  In (score (result d)) [100; 95; 90]
  /\ (List.length (issues (result d)) <= 2)%nat
  /\ Forall (fun i => i_type i = Some "warning") (issues (result d))
  /\ In (UniversityComplianceTracker._get_compliance_status (score (result d)))
        ["COMPLIANT - Excellent"; "COMPLIANT - Good"]
  /\ exists n, line_count d = Some n /\ 1 <= n.
Proof.
  cbv zeta. unfold _analyze_text. cbn [result score issues line_count].
  pose proof (split_on_nonempty PyText.newline content) as Hlines.
  set (lines := PyText.split_on PyText.newline content) in *.
  set (spacing := (1000 <? Z.of_nat (PyStr.py_len content))
                  && PyText.contains_text three_newlines content).
  set (long := List.filter _ lines).
  assert (Hn : 1 <= len lines) by (unfold len; lia).
  split; [|split; [|split; [|split]]].
  5: { exists (len lines). split; [reflexivity | exact Hn]. }
  all: destruct spacing, long as [|l long'];
    unfold _calculate_score; simpl;
    destruct (Z.ltb_spec 10 (len lines)); simpl;
    try lia; auto 10; repeat constructor.
Qed.

Lemma find_text_cases (pages : list (outcome string)) :
  (exists e, find_text pages = Raised e)
  \/ (exists t, find_text pages = Returned t).
Proof.
  destruct (find_text pages) as [e|t]; eauto.
Qed.

(** X26: A PDF analysis either fails, with the score 0, or has at most three
    issues and a score from 65 to 100; [has_text] is then false exactly
    when the issue "Scanned/Image PDF" is reported. *)
Theorem analyze_pdf_scores (filename : string) (opened : outcome pdf_reader) :
  let d := _analyze_pdf filename opened in
  method (result d) = "error" /\ score (result d) = 0
  \/ method (result d) = "pdf-analysis"
     /\ 65 <= score (result d) <= 100
     /\ (List.length (issues (result d)) <= 3)%nat
     /\ exists t,
          has_text d = Some t
          /\ existsb (fun i => String.eqb (get (i_title i) "") "Scanned/Image PDF")
                     (issues (result d))
             = negb t.
Proof.
  cbv zeta. unfold _analyze_pdf.
  destruct opened as [e|reader]; [left; split; reflexivity|].
  destruct (find_text (firstn 3 (pages reader))) as [e|t];
    [left; split; reflexivity|].
  right. cbn [result method score issues has_text].
  split; [reflexivity|].
  destruct (no_title reader), (outline reader) as [|b bs], t;
    unfold _calculate_score; simpl;
    destruct (Z.ltb_spec 10 (len (pages reader))); simpl;
    (split; [lia|]); (split; [lia|]); eexists; split; reflexivity.
Qed.

(** X27: Only the first three pages are searched for text: two readers that
    differ in the later pages only, with as many pages, give the same
    analysis. *)
Theorem analyze_pdf_first_three_pages
    (filename : string) (reader : pdf_reader) (later : list (outcome string)) :
  List.length later = List.length (skipn 3 (pages reader)) ->
  _analyze_pdf filename
    (Returned {| metadata := metadata reader; outline := outline reader;
                 pages := firstn 3 (pages reader) ++ later |})
  = _analyze_pdf filename (Returned reader).
Proof.
  intros Hlen. unfold _analyze_pdf. cbn [metadata outline pages no_title].
  assert (Hfirst : firstn 3 (firstn 3 (pages reader) ++ later)
                   = firstn 3 (pages reader)).
  { destruct (pages reader) as [|a [|b [|c l]]]; simpl in *.
    - destruct later; [reflexivity | discriminate].
    - destruct later; [reflexivity | discriminate].
    - destruct later; [reflexivity | discriminate].
    - reflexivity. }
  assert (Hcount : len (firstn 3 (pages reader) ++ later) = len (pages reader)).
  { unfold len. rewrite length_app, Hlen, <- length_app, firstn_skipn.
    reflexivity. }
  rewrite Hfirst, Hcount. reflexivity.
Qed.

Lemma analyze_pdf_first_three_pages_witness :
  let reader later :=
    {| metadata := Some {[ "/Title" := "Syllabus" ]};
       outline := ["Week 1"];
       pages := [Returned ""; Returned "  "; Returned ""] ++ later |} in
  _analyze_pdf "syllabus.pdf" (Returned (reader [Returned "Week 1: reading"]))
  = _analyze_pdf "syllabus.pdf" (Returned (reader [Raised "unreadable"])).
Proof.
  intros reader.
  apply (analyze_pdf_first_three_pages "syllabus.pdf"
           (reader [Raised "unreadable"]) [Returned "Week 1: reading"]).
  reflexivity.
Defined.

Lemma analyze_text_bounds (filename content : string) :
  let s := score (result (_analyze_text filename (Returned content))) in
  s = 100 \/ s = 95 \/ s = 90.
Proof.
  cbv zeta. unfold _analyze_text. cbn [result score].
  destruct ((1000 <? Z.of_nat (PyStr.py_len content))
            && PyText.contains_text three_newlines content),
    (List.filter _ (PyText.split_on PyText.newline content)) as [|l long'];
    unfold _calculate_score; simpl;
    destruct (Z.ltb_spec 10 (len (PyText.split_on PyText.newline content)));
    simpl; lia.
Qed.

Lemma analyze_pdf_bounds (filename : string) (opened : outcome pdf_reader) :
  let r := result (_analyze_pdf filename opened) in
  method r = "error" /\ score r = 0
  \/ method r = "pdf-analysis" /\ 65 <= score r <= 100.
Proof.
  cbv zeta. unfold _analyze_pdf.
  destruct opened as [e|reader]; [left; split; reflexivity|].
  destruct (find_text (firstn 3 (pages reader))) as [e|t];
    [left; split; reflexivity|].
  right. cbn [result method score]. split; [reflexivity|].
  destruct (no_title reader), (outline reader) as [|b bs], t;
    unfold _calculate_score; simpl;
    destruct (Z.ltb_spec 10 (len (pages reader))); simpl; lia.
Qed.

(** X28: [analyze_document] raises exactly for the extensions ".doc" and
    ".docx", in any letter case; every result it returns is an error
    result with the score 0, a PDF analysis with a score from 65 or a text
    analysis with a score from 90. *)
Theorem analyze_document_outcomes (filename : string) (file : opened_file) :
  let ext := PyStr.py_lower (PyText.splitext_ext filename) in
  match analyze_document filename file with
  | Raised _ => ext = ".doc" \/ ext = ".docx"
  | Returned d =>
      ext <> ".doc" /\ ext <> ".docx"
      /\ (method (result d) = "error" /\ score (result d) = 0
          \/ method (result d) = "pdf-analysis" /\ 65 <= score (result d) <= 100
          \/ method (result d) = "text-analysis" /\ 90 <= score (result d) <= 100)
  end.
Proof.
  cbv zeta. unfold analyze_document.
  set (ext := PyStr.py_lower (PyText.splitext_ext filename)).
  clearbody ext.
  destruct (String.eqb ext ".pdf") eqn:Hpdf.
  { apply String.eqb_eq in Hpdf. subst ext.
    split; [discriminate|]. split; [discriminate|].
    destruct (analyze_pdf_bounds filename (as_pdf file)) as [H|H]; auto. }
  destruct (String.eqb ext ".doc") eqn:Hdoc;
    [left; now apply String.eqb_eq|].
  destruct (String.eqb ext ".docx") eqn:Hdocx;
    [right; now apply String.eqb_eq|].
  apply String.eqb_neq in Hdoc, Hdocx. cbn [orb].
  destruct (String.eqb ext ".txt").
  - split; [exact Hdoc|]. split; [exact Hdocx|].
    destruct (as_text file) as [e|content]; [left; split; reflexivity|].
    right. right. split; [reflexivity|].
    destruct (analyze_text_bounds filename content) as [H|[H|H]];
      rewrite H; lia.
  - split; [exact Hdoc|]. split; [exact Hdocx|].
    left. split; reflexivity.
Qed.

End DocumentFacts.

Section DocumentExamples.
Import DocumentChecker.

(** A PDF whose only text is on its fourth page is reported as scanned. *)
Example text_on_page_four :
  let reader :=
    {| metadata := Some {[ "/Title" := "Syllabus" ]};
       outline := ["Week 1"];
       pages := [Returned ""; Returned " "; Returned ""; Returned "Week 1"] |} in
  let d := _analyze_pdf "syllabus.pdf" (Returned reader) in
  has_text d = Some false
  /\ score (result d) = 85
  /\ map i_title (issues (result d)) = [Some "Scanned/Image PDF"].
Proof. repeat split. Qed.

(** The extension is compared in lower case; a name that is only an
    extension has none; a Word document is not analysed. *)
Example extensions :
  let file := {| as_pdf := Raised "not a PDF"; as_text := Returned "hello" |} in
  (exists d, analyze_document "NOTES.TXT" file = Returned d
             /\ method (result d) = "text-analysis" /\ score (result d) = 100)
  /\ (exists d, analyze_document ".pdf" file = Returned d
                /\ i_description <$> issues (result d)
                   = [Some "Unsupported file type: "])
  /\ (exists e, analyze_document "thesis.docx" file = Raised e).
Proof.
  intros file. split; [|split]; eexists; repeat split.
Qed.

End DocumentExamples.
